(** * RobotPuzzle: the request handlers under aws/lambda-functions

    A shallow embedding of the four Lambda handlers
    (board-configurations.py, rounds.py with its older variant index.py,
    scores.py, user-profiles.py) and the properties the specification
    states about them.

    Conventions of the embedding.
    - A Python value is a [Py.value].  A number is modelled by its integer
      value: a Python [int] and the [Decimal] that the table client hands
      back for a stored number are the same [VInt]; the conversions the
      handlers apply before serialising ([convert_decimals],
      [clean_data_for_json], [decimal_default]) keep that value.  Numbers
      with a fraction (Python floats) are outside the model.
    - A [str] is a [string] read as a sequence of code points below 256.
    - A raised exception is [Raise e]; [try ... except] is [try_except].
    - A table is a finite map from its primary key to the stored item; a
      request with a key attribute that is not a string fails
      ([ClientError]).  A table holds no item under an empty key and
      refuses a request that names one, and its client refuses a number
      of more than 38 significant digits: the scores table is modelled
      with both refusals ([Scores.table_key], [Scores.storable]); of the
      other tables the model covers the requests that they accept.
    - The clock is an argument: every [utcnow().isoformat()] and
      [now().timestamp()] of the source is a parameter of the function.
    - [json.loads] and [json.dumps] are not re-implemented: an event carries
      what its body parses to, and a response carries the value that is
      serialised as its body. *)

From Stdlib Require Import ZArith String Ascii DecimalString DecimalPos Lia.
From stdpp Require Import base strings gmap list option.

Local Open Scope string_scope.

(** ** Python values and the builtins the handlers use *)

Module Py.

#[warnings="-register-all"]
Inductive value : Type :=
| VNone
| VBool (b : bool)
| VInt (z : Z)
| VStr (s : string)
| VList (l : list value)
| VDict (d : list (string * value)).

(** A [dict] with string keys, in insertion order, keys pairwise distinct. *)
Definition dict : Type := list (string * value).

Inductive exn : Type :=
| KeyError (k : string)
| ValueError
| TypeError
| AttributeError
| IndexError
| ArithmeticError
| JSONDecodeError
| ClientError.

Inductive result (A : Type) : Type :=
| Ok (a : A)
| Raise (e : exn).
Arguments Ok {A} a.
Arguments Raise {A} e.

#[global] Instance result_ret : MRet result := λ A a, Ok a.
#[global] Instance result_bind : MBind result := λ A B f m,
  match m with
  | Ok a => f a
  | Raise e => Raise e
  end.

#[global] Instance result_fmap : FMap result := λ A B f m,
  match m with
  | Ok a => Ok (f a)
  | Raise e => Raise e
  end.

(** [try: body except Exception as e: handler e] *)
Definition try_except {A : Type} (body : result A) (handler : exn → A) : A :=
  match body with
  | Ok a => a
  | Raise e => handler e
  end.

(** *** Dictionaries *)

(** [d.get(k)] as an option, the first binding of [k]. *)
Fixpoint dict_get (k : string) (d : dict) : option value :=
  match d with
  | [] => None
  | (k', v) :: d' => if String.eqb k k' then Some v else dict_get k d'
  end.

(** [k in d] *)
Definition dict_in (k : string) (d : dict) : bool :=
  match dict_get k d with
  | Some _ => true
  | None => false
  end.

(** [d[k]] *)
Definition getitem (k : string) (d : dict) : result value :=
  match dict_get k d with
  | Some v => Ok v
  | None => Raise (KeyError k)
  end.

(** [d.get(k, dflt)] *)
Definition get_default (k : string) (dflt : value) (d : dict) : value :=
  match dict_get k d with
  | Some v => v
  | None => dflt
  end.

(** [d.get(k)] *)
Definition get (k : string) (d : dict) : value := get_default k VNone d.

(** [d[k] = v]: an existing key keeps its position. *)
Fixpoint dict_set (k : string) (v : value) (d : dict) : dict :=
  match d with
  | [] => [(k, v)]
  | (k', v') :: d' =>
      if String.eqb k k' then (k', v) :: d' else (k', v') :: dict_set k v d'
  end.

(** *** Truth value, equality, ordering *)

(** [bool(v)], as in [if v:] and [not v]. *)
Definition truthy (v : value) : bool :=
  match v with
  | VNone => false
  | VBool b => b
  | VInt z => negb (z =? 0)%Z
  | VStr s => negb (String.eqb s "")
  | VList l => match l with [] => false | _ => true end
  | VDict d => match d with [] => false | _ => true end
  end.

(** The number behind an [int] or a [bool]. *)
Definition num_of (v : value) : option Z :=
  match v with
  | VInt z => Some z
  | VBool b => Some (Z.b2z b)
  | _ => None
  end.

(** [a == b] *)
Fixpoint py_eq (a b : value) {struct a} : bool :=
  match a, b with
  | VNone, VNone => true
  | VBool x, VBool y => Bool.eqb x y
  | VBool x, VInt y => (Z.b2z x =? y)%Z
  | VInt x, VBool y => (x =? Z.b2z y)%Z
  | VInt x, VInt y => (x =? y)%Z
  | VStr s, VStr t => String.eqb s t
  | VList l, VList m =>
      (fix all2 (l m : list value) {struct l} : bool :=
         match l, m with
         | [], [] => true
         | x :: l', y :: m' => py_eq x y && all2 l' m'
         | _, _ => false
         end) l m
  | VDict d, VDict e =>
      Nat.eqb (length d) (length e) &&
      (fix sub (d : list (string * value)) : bool :=
         match d with
         | [] => true
         | (k, v) :: d' =>
             match dict_get k e with
             | Some w => py_eq v w
             | None => false
             end && sub d'
         end) d
  | _, _ => false
  end.

(** [a >= b]: numbers by value, strings and lists lexicographically, and a
    [TypeError] for every other pair of types. *)
Fixpoint py_ge (a b : value) {struct a} : result bool :=
  match a, b with
  | VStr s, VStr t => Ok (String.leb t s)
  | VList l, VList m =>
      (fix lex (l m : list value) {struct l} : result bool :=
         match l, m with
         | x :: l', y :: m' => if py_eq x y then lex l' m' else py_ge x y
         | _, [] => Ok true
         | [], _ :: _ => Ok false
         end) l m
  | _, _ =>
      match num_of a, num_of b with
      | Some x, Some y => Ok (y <=? x)%Z
      | _, _ => Raise TypeError
      end
  end.

(** [v + 1] *)
Definition add1 (v : value) : result value :=
  match num_of v with
  | Some z => Ok (VInt (z + 1))
  | None => Raise TypeError
  end.

(** [len(v)] *)
Definition len (v : value) : result nat :=
  match v with
  | VStr s => Ok (String.length s)
  | VList l => Ok (length l)
  | VDict d => Ok (length d)
  | _ => Raise TypeError
  end.

(** *** Strings *)

Definition code (c : ascii) : N := N_of_ascii c.

(** [c.isspace()] for a code point below 256. *)
Definition isspace (c : ascii) : bool :=
  let n := code c in
  ((9 <=? n) && (n <=? 13) || (28 <=? n) && (n <=? 32)
   || (n =? 133) || (n =? 160))%N.

Definition isdigit (c : ascii) : bool :=
  let n := code c in ((48 <=? n) && (n <=? 57))%N.

(** [c.isalnum()] for a code point below 256: the ASCII letters and
    digits, and the Latin-1 letters and numeric characters. *)
Definition isalnum_char (c : ascii) : bool :=
  let n := code c in
  ((48 <=? n) && (n <=? 57) || (65 <=? n) && (n <=? 90)
   || (97 <=? n) && (n <=? 122)
   || (n =? 170) || (n =? 178) || (n =? 179) || (n =? 181)
   || (n =? 185) || (n =? 186) || (188 <=? n) && (n <=? 190)
   || (192 <=? n) && (n <=? 214) || (216 <=? n) && (n <=? 246)
   || (248 <=? n) && (n <=? 255))%N.

Fixpoint all_chars (p : ascii → bool) (s : string) : bool :=
  match s with
  | EmptyString => true
  | String c r => p c && all_chars p r
  end.

(** [s.isalnum()]: false on the empty string. *)
Definition isalnum (s : string) : bool :=
  negb (String.eqb s "") && all_chars isalnum_char s.

Fixpoint lstrip (s : string) : string :=
  match s with
  | EmptyString => EmptyString
  | String c r => if isspace c then lstrip r else s
  end.

(** [s.strip()] *)
Definition strip (s : string) : string :=
  String.rev (lstrip (String.rev (lstrip s))).

(** [s.replace(c, '')] for a one-character [c]. *)
Fixpoint remove_char (c : ascii) (s : string) : string :=
  match s with
  | EmptyString => EmptyString
  | String c' r =>
      if Ascii.eqb c c' then remove_char c r else String c' (remove_char c r)
  end.

(** [s.split(sep)] for a one-character [sep]; never the empty list. *)
Fixpoint split (sep : ascii) (s : string) : list string :=
  match s with
  | EmptyString => [EmptyString]
  | String c r =>
      if Ascii.eqb c sep then EmptyString :: split sep r
      else match split sep r with
           | h :: t => String c h :: t
           | [] => [String c EmptyString]
           end
  end.

(** [s.startswith(p)] *)
Definition startswith (p s : string) : bool := String.prefix p s.

(** [s.endswith(p)] *)
Definition endswith (p s : string) : bool :=
  String.prefix (String.rev p) (String.rev s).

(** [p in s] *)
Fixpoint contains (p s : string) : bool :=
  String.prefix p s ||
  match s with
  | EmptyString => false
  | String _ r => contains p r
  end.

(** *** [int(...)] and [str(...)] *)

(** The digits of a decimal literal, single underscores allowed between
    digits; [seen] tells whether the previous character was a digit. *)
Fixpoint digits_val (s : string) (acc : Z) (seen : bool) : option Z :=
  match s with
  | EmptyString => if seen then Some acc else None
  | String c r =>
      if isdigit c
      then digits_val r (10 * acc + Z.of_N (code c - 48)) true
      else if Ascii.eqb c "_" && seen then
             match r with
             | EmptyString => None
             | String c' _ =>
                 if isdigit c' then digits_val r acc false else None
             end
           else None
  end.

(** The white space that [int] skips around a literal.  It is not that of
    [str.isspace]: [int] takes a code point below 127 as it is and skips
    the C white space (tab to carriage return, and the space), and it reads
    a Unicode space from 127 on (here 133 and 160) as a space.  The
    separators 28 to 31, which [strip] removes, make [int] fail. *)
Definition int_space (c : ascii) : bool :=
  let n := code c in
  ((9 <=? n) && (n <=? 13) || (n =? 32) || (n =? 133) || (n =? 160))%N.

Fixpoint int_lstrip (s : string) : string :=
  match s with
  | EmptyString => EmptyString
  | String c r => if int_space c then int_lstrip r else s
  end.

Definition int_strip (s : string) : string :=
  String.rev (int_lstrip (String.rev (int_lstrip s))).

(** [int(s)] on a string: surrounding white space, an optional sign, then
    the digits.  [None] is [ValueError]. *)
Definition int_of_str (s : string) : option Z :=
  match int_strip s with
  | String "-" r => Z.opp <$> digits_val r 0 false
  | String "+" r => digits_val r 0 false
  | t => digits_val t 0 false
  end.

(** [int(v)] *)
Definition py_int (v : value) : result Z :=
  match v with
  | VInt z => Ok z
  | VBool b => Ok (Z.b2z b)
  | VStr s =>
      match int_of_str s with
      | Some z => Ok z
      | None => Raise ValueError
      end
  | _ => Raise TypeError
  end.

(** [str(z)] *)
Definition py_str (z : Z) : string := NilZero.string_of_int (Z.to_int z).

(** *** Containers reached through a value *)

(** [k in c] for a string [k]: a key of a dict, an element of a list, a
    substring of a string. *)
Definition contains_key (k : string) (c : value) : result bool :=
  match c with
  | VDict d => Ok (dict_in k d)
  | VList l => Ok (existsb (py_eq (VStr k)) l)
  | VStr s => Ok (contains k s)
  | _ => Raise TypeError
  end.

(** [c[k]] for a string [k] *)
Definition subscript (c : value) (k : string) : result value :=
  match c with
  | VDict d => getitem k d
  | _ => Raise TypeError
  end.

(** [c.get(k)] *)
Definition attr_get (c : value) (k : string) : result value :=
  match c with
  | VDict d => Ok (get k d)
  | _ => Raise AttributeError
  end.

(** [c.get(k, dflt)] *)
Definition attr_get_default (c : value) (k : string) (dflt : value)
  : result value :=
  match c with
  | VDict d => Ok (get_default k dflt d)
  | _ => Raise AttributeError
  end.

(** [c[k] = v] *)
Definition set_item (c : value) (k : string) (v : value) : result value :=
  match c with
  | VDict d => Ok (VDict (dict_set k v d))
  | _ => Raise TypeError
  end.

(** [l[i]] for a list of strings and [i >= 0] *)
Definition index (l : list string) (i : nat) : result string :=
  match l !! i with
  | Some s => Ok s
  | None => Raise IndexError
  end.

(** A [str] or [None] as a value. *)
Definition of_opt_str (o : option string) : value :=
  match o with
  | Some s => VStr s
  | None => VNone
  end.

End Py.

Export Py.

(** ** Events, responses and tables *)

Module Http.

(** The identity claims an upstream authorizer attaches to a request. *)
Record claims_bag : Type := Claims {
  sub : option string;
  email : option string
}.

(** The [body] of an event: null, or a string and what [json.loads] makes
    of it. *)
Inductive raw_body : Type :=
| BodyNull
| BodyEmpty
| BodyMalformed
| BodyJson (v : value).

(** A proxy-integration event.  [claims] is
    [requestContext.authorizer.claims], [None] when one of the three is
    missing; [pathParameters] is null when the route has no parameter. *)
Record event : Type := Event {
  httpMethod : string;
  path : string;
  pathParameters : option (list (string * string));
  claims : option claims_bag;
  body : raw_body
}.

(** A message: a literal, or an f-string ending in [str(e)]. *)
Inductive text : Type :=
| Lit (s : string)
| LitExn (s : string) (e : exn).

(** The body of a response: [''], [json.dumps(v)], or
    [json.dumps({'error': msg})]. *)
Inductive payload : Type :=
| NoContent
| Json (v : value)
| Error (msg : text).

Record response : Type := Response {
  statusCode : Z;
  headers : list (string * string);
  payload_of : payload
}.

(** [params.get(k)] on path parameters. *)
Fixpoint param (k : string) (ps : list (string * string)) : option string :=
  match ps with
  | [] => None
  | (k', v) :: ps' => if String.eqb k k' then Some v else param k ps'
  end.

(** [not s] for a [str] or [None]. *)
Definition blank (o : option string) : bool :=
  match o with
  | Some s => String.eqb s ""
  | None => true
  end.

(** A key attribute handed to the table client must be a string. *)
Definition key_attr (v : value) : result string :=
  match v with
  | VStr s => Ok s
  | _ => Raise ClientError
  end.

End Http.

Export Http.

(** ** scores.py *)

Module Scores.

Definition cors_headers : list (string * string) :=
  [("Access-Control-Allow-Origin", "https://robots.mlusby.dev");
   ("Access-Control-Allow-Headers",
    "Content-Type,X-Amz-Date,Authorization,X-Api-Key,X-Amz-Security-Token");
   ("Access-Control-Allow-Methods", "GET,POST,OPTIONS");
   ("Content-Type", "application/json")].

Fixpoint clean_data_for_json (data : value) : value :=
  match data with
  | VList l => VList (map clean_data_for_json l)
  | VDict d =>
      VDict (map (λ kv : string * value,
                    match kv with
                    | (key, v) =>
                        (key, match v with
                              | VNone => VNone
                              | _ => clean_data_for_json v
                              end)
                    end) d)
  | v => v
  end.

Definition success_response (data : value) (status_code : Z) : response :=
  Response status_code cors_headers (Json (clean_data_for_json data)).

Definition error_response (status_code : Z) (message : text) : response :=
  Response status_code cors_headers (Error message).

Definition cors_response : response := Response 200 cors_headers NoContent.

(** The table client sends a number as a decimal of at most 38
    significant digits, and raises on a longer one. *)
Definition number_limit : Z := 100000000000000000000000000000000000000.

Fixpoint storable (v : value) : bool :=
  match v with
  | VInt z => (Z.abs z <? number_limit)%Z
  | VList l => forallb storable l
  | VDict d =>
      forallb (λ kv : string * value,
                 match kv with (_, w) => storable w end) d
  | _ => true
  end.

(** What the client does to a value before the request is sent. *)
Definition serialize (v : value) : result value :=
  if storable v then Ok v else Raise ArithmeticError.

(** A key attribute of the scores table: the table refuses a value that
    is not a string, and the empty string. *)
Definition table_key (v : value) : result string :=
  s ← key_attr v;
  if String.eqb s "" then Raise ClientError else Ok s.

(** [scores_table.get_item(Key={'roundId': round_id, 'userId': user_id})] *)
Definition get_item (round_id : value) (user_id : string)
    (scores_table : gmap (string * string) dict) : result (option dict) :=
  _ ← serialize round_id;
  rid ← table_key round_id;
  uid ← table_key (VStr user_id);
  Ok (scores_table !! (rid, uid)).

(** [scores_table.put_item(Item=item)] *)
Definition put_item (item : dict)
    (scores_table : gmap (string * string) dict)
  : result (gmap (string * string) dict) :=
  _ ← serialize (VDict item);
  rid ← table_key (get "roundId" item);
  uid ← table_key (get "userId" item);
  Ok (<[(rid, uid) := item]> scores_table).

Definition submit_score (now : string) (user_id : string) (round_id : value)
    (score_data : value) (user_email : option string)
    (scores_table : gmap (string * string) dict)
  : response * gmap (string * string) dict :=
  try_except
    (has_moves ← contains_key "moves" score_data;
     if negb has_moves
     then Ok (error_response 400 (Lit "moves field is required"), scores_table)
     else
     has_sequence ← contains_key "moveSequence" score_data;
     if negb has_sequence
     then Ok (error_response 400 (Lit "moveSequence field is required"),
              scores_table)
     else
     moves ← subscript score_data "moves";
     move_sequence ← subscript score_data "moveSequence";
     (* the logged [len(move_sequence) if move_sequence else 'None'] *)
     _ ← (if truthy move_sequence then len move_sequence else Ok 0%nat);
     existing_response ← get_item round_id user_id scores_table;
     let save (attempt_count : value) :=
       let score_item : dict :=
         [("roundId", round_id);
          ("userId", VStr user_id);
          ("moves", moves);
          ("moveSequence", move_sequence);
          ("completedAt", VStr now);
          ("attemptCount", attempt_count);
          ("userEmail", of_opt_str user_email)] in
       scores_table' ← put_item score_item scores_table;
       Ok (success_response
             (VDict [("message", VStr "Score submitted successfully");
                     ("moves", moves);
                     ("personalBest", VBool true);
                     ("attemptCount", attempt_count)]) 201,
           scores_table') in
     match existing_response with
     | Some existing_score =>
         attempt_count ←
           add1 (get_default "attemptCount" (VInt 0) existing_score);
         best ← getitem "moves" existing_score;
         not_improved ← py_ge moves best;
         if (not_improved : bool)
         then
           current_best ← py_int best;
           Ok (success_response
                 (VDict [("message", VStr "Score not improved");
                         ("currentBest", VInt current_best);
                         ("submitted", moves);
                         ("personalBest", VBool false)]) 200,
               scores_table)
         else save attempt_count
     | None => save (VInt 1)
     end)
    (λ e, (error_response 500 (LitExn "Failed to submit score: " e),
           scores_table)).

Section handler.

(** The [LeaderboardIndex] of the scores table is declared outside the
    handler sources: the query on it is a parameter. *)
Variable leaderboard_index :
  gmap (string * string) dict → string → list dict.

Definition get_leaderboard (round_id : string)
    (scores_table : gmap (string * string) dict) : response :=
  success_response
    (VList (VDict <$> leaderboard_index scores_table round_id)) 200.

(** A scan with the filter [userId = :userId]. *)
Definition get_user_scores (user_id : string)
    (scores_table : gmap (string * string) dict) : response :=
  let items :=
    filter (λ item, py_eq (get "userId" item) (VStr user_id) = true)
           (snd <$> map_to_list scores_table) in
  success_response (VList (VDict <$> items)) 200.

Definition lambda_handler (now : string) (ev : event)
    (scores_table : gmap (string * string) dict)
  : response * gmap (string * string) dict :=
  try_except
    (let http_method := httpMethod ev in
     if String.eqb http_method "OPTIONS" then Ok (cors_response, scores_table)
     else
     let user_id := claims ev ≫= sub in
     let user_email := claims ev ≫= email in
     match user_id with
     | None =>
         Ok (error_response 401 (Lit "Unauthorized: No user ID found"),
             scores_table)
     | Some user_id =>
       if String.eqb user_id ""
       then Ok (error_response 401 (Lit "Unauthorized: No user ID found"),
                scores_table)
       else
       let path_params := default [] (pathParameters ev) in
       let round_id := param "roundId" path_params in
       if String.eqb http_method "GET" then
         match round_id with
         | Some rid =>
             if String.eqb rid ""
             then Ok (get_user_scores user_id scores_table, scores_table)
             else Ok (get_leaderboard rid scores_table, scores_table)
         | None => Ok (get_user_scores user_id scores_table, scores_table)
         end
       else if String.eqb http_method "POST" then
         match body ev with
         | BodyEmpty | BodyMalformed =>
             Ok (error_response 400 (Lit "Invalid JSON in request body"),
                 scores_table)
         | parsed =>
             let score_data :=
               match parsed with BodyJson v => v | _ => VNone end in
             round_id ←
               (if blank round_id then attr_get score_data "roundId"
                else Ok (of_opt_str round_id));
             if negb (truthy round_id)
             then Ok (error_response 400
                        (Lit ("roundId is required for score submission "
                              +:+ "(in path or body)")),
                      scores_table)
             else Ok (submit_score now user_id round_id score_data user_email
                        scores_table)
         end
       else Ok (error_response 405 (Lit "Method not allowed"), scores_table)
     end)
    (λ e, match e with
          | KeyError _ =>
              (error_response 400 (LitExn "Missing required parameter: " e),
               scores_table)
          | _ =>
              (error_response 500 (LitExn "Internal server error: " e),
               scores_table)
          end).

End handler.

End Scores.

(** ** board-configurations.py *)

Module Configurations.

Definition cors_headers : list (string * string) :=
  [("Access-Control-Allow-Origin", "*");
   ("Access-Control-Allow-Headers",
    "Content-Type,X-Amz-Date,Authorization,X-Api-Key,X-Amz-Security-Token");
   ("Access-Control-Allow-Methods", "GET,POST,PUT,DELETE,OPTIONS");
   ("Content-Type", "application/json")].

Definition success_response (data : value) (status_code : Z) : response :=
  Response status_code cors_headers (Json data).

Definition error_response (status_code : Z) (message : text) : response :=
  Response status_code cors_headers (Error message).

Definition cors_response : response := Response 200 cors_headers NoContent.

(** The table, keyed by (userId, configId). *)

Definition get_item (user_id config_id : string)
    (table : gmap (string * string) dict) : option dict :=
  table !! (user_id, config_id).

Definition put_item (item : dict) (table : gmap (string * string) dict)
  : result (gmap (string * string) dict) :=
  uid ← key_attr (get "userId" item);
  cid ← key_attr (get "configId" item);
  Ok (<[(uid, cid) := item]> table).

Definition delete_item (user_id config_id : string)
    (table : gmap (string * string) dict) : gmap (string * string) dict :=
  delete (user_id, config_id) table.

(** [table.query] with the key condition [userId = :userId]. *)
Definition query (user_id : string) (table : gmap (string * string) dict)
  : list dict :=
  snd <$> map_to_list (filter (λ kv, kv.1.1 = user_id) table).

(** The key under which [json.dumps] writes a dict entry whose key came
    out of the table. *)
Definition json_key (v : value) : result string :=
  match v with
  | VStr s => Ok s
  | VBool true => Ok "true"
  | VBool false => Ok "false"
  | VNone => Ok "null"
  | _ => Raise TypeError
  end.

Definition view (item : dict) : value :=
  VDict [("walls", get_default "walls" (VList []) item);
         ("targets", get_default "targets" (VList []) item);
         ("createdAt", get "createdAt" item);
         ("updatedAt", get "updatedAt" item)].

Fixpoint collect (items : list dict) (configurations : dict) : result dict :=
  match items with
  | [] => Ok configurations
  | item :: rest =>
      cid ← getitem "configId" item;
      k ← json_key cid;
      collect rest (dict_set k (view item) configurations)
  end.

Definition get_configurations (user_id : string)
    (table : gmap (string * string) dict) : response :=
  try_except
    (configurations ← collect (query user_id table) [];
     Ok (success_response (VDict configurations) 200))
    (λ e, error_response 500 (LitExn "Failed to get configurations: " e)).

Definition get_configuration (user_id config_id : string)
    (table : gmap (string * string) dict) : response :=
  match get_item user_id config_id table with
  | None => error_response 404 (Lit "Configuration not found")
  | Some item => success_response (view item) 200
  end.

(** The loop that fills [existing_ids]: a [ValueError] of [int] skips the
    item, any other exception leaves the loop. *)
Fixpoint existing_ids (items : list dict) : result (list Z) :=
  match items with
  | [] => Ok []
  | item :: rest =>
      cid ← getitem "configId" item;
      match py_int cid with
      | Ok n => ids ← existing_ids rest; Ok (n :: ids)
      | Raise ValueError => existing_ids rest
      | Raise e => Raise e
      end
  end.

(** [max(ids)] of a non-empty list, given as head and tail. *)
Definition py_max (x : Z) (xs : list Z) : Z := fold_left Z.max xs x.

(** [max(existing_ids) + 1 if existing_ids else 1] *)
Definition next_id (ids : list Z) : Z :=
  match ids with
  | [] => 1
  | x :: xs => py_max x xs + 1
  end.

Definition create_configuration (now : string) (user_id : string)
    (data : value) (table : gmap (string * string) dict)
  : response * gmap (string * string) dict :=
  try_except
    (has_walls ← contains_key "walls" data;
     missing ← (if negb has_walls then Ok true
                else negb <$> contains_key "targets" data);
     if (missing : bool)
     then Ok (error_response 400 (Lit "Missing walls or targets data"), table)
     else
     ids ← existing_ids (query user_id table);
     let config_id := py_str (next_id ids) in
     walls ← subscript data "walls";
     targets ← subscript data "targets";
     let item : dict :=
       [("userId", VStr user_id);
        ("configId", VStr config_id);
        ("walls", walls);
        ("targets", targets);
        ("createdAt", VStr now);
        ("updatedAt", VStr now)] in
     table' ← put_item item table;
     Ok (success_response (VDict [("configId", VStr config_id)]) 201, table'))
    (λ e, (error_response 500 (LitExn "Failed to create configuration: " e),
           table)).

Definition update_configuration (now : string) (user_id config_id : string)
    (data : value) (table : gmap (string * string) dict)
  : response * gmap (string * string) dict :=
  try_except
    (match get_item user_id config_id table with
     | None => Ok (error_response 404 (Lit "Configuration not found"), table)
     | Some existing =>
         has_walls ← contains_key "walls" data;
         missing ← (if negb has_walls then Ok true
                    else negb <$> contains_key "targets" data);
         if (missing : bool)
         then Ok (error_response 400 (Lit "Missing walls or targets data"),
                  table)
         else
         walls ← subscript data "walls";
         targets ← subscript data "targets";
         let item : dict :=
           [("userId", VStr user_id);
            ("configId", VStr config_id);
            ("walls", walls);
            ("targets", targets);
            ("createdAt", get_default "createdAt" (VStr now) existing);
            ("updatedAt", VStr now)] in
         table' ← put_item item table;
         Ok (success_response
               (VDict [("message", VStr "Configuration updated successfully")])
               200,
             table')
     end)
    (λ e, (error_response 500 (LitExn "Failed to update configuration: " e),
           table)).

Definition delete_configuration (user_id config_id : string)
    (table : gmap (string * string) dict)
  : response * gmap (string * string) dict :=
  match get_item user_id config_id table with
  | None => (error_response 404 (Lit "Configuration not found"), table)
  | Some _ =>
      (success_response
         (VDict [("message", VStr "Configuration deleted successfully")]) 200,
       delete_item user_id config_id table)
  end.

(** [json.loads(event['body'])] *)
Definition loads (b : raw_body) : result value :=
  match b with
  | BodyNull => Raise TypeError
  | BodyEmpty | BodyMalformed => Raise JSONDecodeError
  | BodyJson v => Ok v
  end.

Definition lambda_handler (now : string) (ev : event)
    (table : gmap (string * string) dict)
  : response * gmap (string * string) dict :=
  try_except
    (let http_method := httpMethod ev in
     let path := path ev in
     (* event['requestContext']['authorizer']['claims']['sub'] *)
     bag ← match claims ev with
           | Some c => Ok c
           | None => Raise (KeyError "claims")
           end;
     user_id ← match sub bag with
               | Some s => Ok s
               | None => Raise (KeyError "sub")
               end;
     if String.eqb http_method "OPTIONS" then Ok (cors_response, table)
     else
     let not_allowed :=
       Ok (error_response 405 (Lit "Method not allowed"), table) in
     if String.eqb path "/configurations" then
       if String.eqb http_method "GET"
       then Ok (get_configurations user_id table, table)
       else if String.eqb http_method "POST"
       then data ← loads (body ev);
            Ok (create_configuration now user_id data table)
       else not_allowed
     else if startswith "/configurations/" path then
       params ← match pathParameters ev with
                | Some ps => Ok ps
                | None => Raise TypeError
                end;
       config_id ← match param "configId" params with
                   | Some c => Ok c
                   | None => Raise (KeyError "configId")
                   end;
       if String.eqb http_method "GET"
       then Ok (get_configuration user_id config_id table, table)
       else if String.eqb http_method "PUT"
       then data ← loads (body ev);
            Ok (update_configuration now user_id config_id data table)
       else if String.eqb http_method "DELETE"
       then Ok (delete_configuration user_id config_id table)
       else not_allowed
     else not_allowed)
    (λ e, match e with
          | KeyError _ =>
              (error_response 400 (LitExn "Missing required parameter: " e),
               table)
          | JSONDecodeError =>
              (error_response 400 (Lit "Invalid JSON in request body"), table)
          | _ => (error_response 500 (Lit "Internal server error"), table)
          end).

End Configurations.

(** ** rounds.py *)

Module Rounds.

Definition cors_headers : list (string * string) :=
  [("Content-Type", "application/json");
   ("Access-Control-Allow-Origin",
    "http://robot-puzzle-game-prod-website.s3-website-us-east-1.amazonaws.com");
   ("Access-Control-Allow-Headers",
    "Content-Type,X-Amz-Date,Authorization,X-Api-Key,X-Amz-Security-Token");
   ("Access-Control-Allow-Methods", "GET,POST,DELETE,OPTIONS")].

(** [json.dumps(body) if body else ''] *)
Definition create_response (status_code : Z) (body : value) : response :=
  Response status_code cors_headers
    (if truthy body then Json body else NoContent).

Definition error_body (message : string) : value :=
  VDict [("error", VStr message)].

Fixpoint convert_decimals (obj : value) : value :=
  match obj with
  | VList l => VList (map convert_decimals l)
  | VDict d =>
      VDict (map (λ kv : string * value,
                    match kv with
                    | (key, v) =>
                        (key, match v with
                              | VNone => VNone
                              | _ => convert_decimals v
                              end)
                    end) d)
  | v => v
  end.

(** The table, keyed by roundId. *)

Definition scan (rounds_table : gmap string dict) : list dict :=
  snd <$> map_to_list rounds_table.

(** [rounds_table.get_item(Key={'roundId': round_id})], for the ids a
    table can hold: it has no item under the empty id, and refuses a
    request that names it. *)
Definition get_item (round_id : string) (rounds_table : gmap string dict)
  : option dict :=
  rounds_table !! round_id.

Definition put_item (item : dict) (rounds_table : gmap string dict)
  : result (gmap string dict) :=
  rid ← key_attr (get "roundId" item);
  Ok (<[rid := item]> rounds_table).

Definition delete_item (round_id : string) (rounds_table : gmap string dict)
  : gmap string dict :=
  delete round_id rounds_table.

(** The five listings.  Each scans the table and converts the items; they
    differ in the log line and in the message of the failure branch. *)

Definition handle_get_solved_rounds (ev : event)
    (user_id user_email : option string)
    (rounds_table : gmap string dict) : response :=
  let rounds := VList (VDict <$> scan rounds_table) in
  let rounds := convert_decimals rounds in
  create_response 200 rounds.

Definition handle_get_baseline_rounds (ev : event)
    (user_id user_email : option string)
    (rounds_table : gmap string dict) : response :=
  let rounds := VList (VDict <$> scan rounds_table) in
  let rounds := convert_decimals rounds in
  create_response 200 rounds.

Definition handle_get_user_submitted_rounds (ev : event)
    (user_id user_email : option string)
    (rounds_table : gmap string dict) : response :=
  let rounds := VList (VDict <$> scan rounds_table) in
  let rounds := convert_decimals rounds in
  create_response 200 rounds.

Definition handle_get_rounds (ev : event) (user_id user_email : option string)
    (rounds_table : gmap string dict) : response :=
  let rounds := VList (VDict <$> scan rounds_table) in
  let rounds := convert_decimals rounds in
  create_response 200 rounds.

Definition handle_get_specific_round (ev : event)
    (user_id user_email : option string)
    (rounds_table : gmap string dict) : response :=
  let path_parts := split "/" (path ev) in
  let round_id := List.last path_parts "" in
  match get_item round_id rounds_table with
  | None => create_response 404 (error_body "Round not found")
  | Some round_item => create_response 200 (convert_decimals (VDict round_item))
  end.

Definition handle_get_round_config (ev : event)
    (user_id user_email : option string)
    (rounds_table : gmap string dict) : response :=
  let path_parts := split "/" (path ev) in
  if (length path_parts <? 4)%nat
  then create_response 400 (error_body "Round ID is required")
  else
  try_except
    (round_id ← index path_parts 3;
     match get_item round_id rounds_table with
     | None => Ok (create_response 404 (error_body "Round not found"))
     | Some round_item =>
         Ok (create_response 200 (convert_decimals (VDict round_item)))
     end)
    (λ _, create_response 500
            (error_body "Failed to retrieve round configuration")).

(** The fields of [required] that are not in [body], in order. *)
Fixpoint missing_fields (required : list string) (body : value)
  : result (list string) :=
  match required with
  | [] => Ok []
  | field :: rest =>
      present ← contains_key field body;
      others ← missing_fields rest body;
      Ok (if (present : bool) then others else field :: others)
  end.

(** [if k in body: item[k] = body[k]] *)
Definition copy_if_present (k : string) (body : value) (item : dict)
  : result dict :=
  present ← contains_key k body;
  if (present : bool)
  then v ← subscript body k; Ok (dict_set k v item)
  else Ok item.

(** [json.loads(raw_body)] once [not raw_body] has been excluded. *)
Definition loads (b : raw_body) : result value :=
  match b with
  | BodyJson v => Ok v
  | _ => Raise JSONDecodeError
  end.

(** [not raw_body] *)
Definition no_body (b : raw_body) : bool :=
  match b with
  | BodyNull | BodyEmpty => true
  | _ => false
  end.

(** [f"round_{int(datetime.datetime.now().timestamp() * 1000)}"] *)
Definition new_round_id (now_ms : Z) : string := "round_" +:+ py_str now_ms.

Definition handle_create_round (now_ms : Z) (now : string) (ev : event)
    (user_id user_email : option string)
    (rounds_table : gmap string dict) : response * gmap string dict :=
  try_except
    (if no_body (body ev)
     then Ok (create_response 400 (error_body "Request body is required"),
              rounds_table)
     else
     body ← loads (body ev);
     body ← (if contains "/config/" (path ev)
             then config_id ← index (split "/" (path ev)) 3;
                  set_item body "configId" (VStr config_id)
             else Ok body);
     missing ←
       missing_fields ["initialRobotPositions"; "targetPositions"] body;
     match missing with
     | _ :: _ =>
         Ok (create_response 400
               (error_body ("Missing required fields: "
                            +:+ String.concat ", " missing)),
             rounds_table)
     | [] =>
         let round_id := new_round_id now_ms in
         config_id ← attr_get_default body "configId" (VStr "");
         initial ← subscript body "initialRobotPositions";
         target ← subscript body "targetPositions";
         let round_item : dict :=
           [("roundId", VStr round_id);
            ("configId", config_id);
            ("initialRobotPositions", initial);
            ("targetPositions", target);
            ("authorEmail", of_opt_str user_email);
            ("authorId", of_opt_str user_id);
            ("createdAt", VStr now)] in
         round_item ← copy_if_present "walls" body round_item;
         round_item ← copy_if_present "targets" body round_item;
         rounds_table' ← put_item round_item rounds_table;
         Ok (create_response 201 (VDict round_item), rounds_table')
     end)
    (λ _, (create_response 500 (error_body "Failed to create round"),
           rounds_table)).

Definition handle_create_round_with_config_id (now_ms : Z) (now : string)
    (ev : event) (user_id user_email : option string)
    (rounds_table : gmap string dict) : response * gmap string dict :=
  try_except
    (config_id ← index (split "/" (path ev)) 3;
     if no_body (body ev)
     then Ok (create_response 400 (error_body "Request body is required"),
              rounds_table)
     else
     body ← loads (body ev);
     body ← set_item body "configId" (VStr config_id);
     missing ←
       missing_fields ["initialRobotPositions"; "targetPositions"] body;
     match missing with
     | _ :: _ =>
         Ok (create_response 400
               (error_body ("Missing required fields: "
                            +:+ String.concat ", " missing)),
             rounds_table)
     | [] =>
         let round_id := new_round_id now_ms in
         initial ← subscript body "initialRobotPositions";
         target ← subscript body "targetPositions";
         let round_item : dict :=
           [("roundId", VStr round_id);
            ("configId", VStr config_id);
            ("initialRobotPositions", initial);
            ("targetPositions", target);
            ("authorEmail", of_opt_str user_email);
            ("authorId", of_opt_str user_id);
            ("createdAt", VStr now)] in
         round_item ← copy_if_present "walls" body round_item;
         round_item ← copy_if_present "targets" body round_item;
         rounds_table' ← put_item round_item rounds_table;
         Ok (create_response 201 (VDict round_item), rounds_table')
     end)
    (λ _, (create_response 500 (error_body "Failed to create round"),
           rounds_table)).

Definition handle_delete_round (ev : event) (user_id user_email : option string)
    (rounds_table : gmap string dict) : response * gmap string dict :=
  let path_parts := split "/" (path ev) in
  if (length path_parts <? 3)%nat
  then (create_response 400 (error_body "Round ID is required"), rounds_table)
  else
  try_except
    (round_id ← index path_parts 2;
     match get_item round_id rounds_table with
     | None =>
         Ok (create_response 404 (error_body "Round not found"), rounds_table)
     | Some round_item =>
         if negb (py_eq (get "authorEmail" round_item) (of_opt_str user_email))
         then Ok (create_response 403
                    (error_body "You can only delete your own rounds"),
                  rounds_table)
         else Ok (create_response 200
                    (VDict [("message", VStr "Round deleted successfully")]),
                  delete_item round_id rounds_table)
     end)
    (λ _, (create_response 500 (error_body "Failed to delete round"),
           rounds_table)).

(** The test that sends a GET to [handle_get_specific_round]. *)
Definition is_specific_round_path (path : string) : bool :=
  startswith "/rounds/" path
  && (2 <? length (split "/" path))%nat
  && negb (endswith "/config" path)
  && negb (endswith "/solved" path)
  && negb (endswith "/baseline" path)
  && negb (endswith "/user-submitted" path)
  && negb (endswith "/user-completed" path).

Definition lambda_handler (now_ms : Z) (now : string) (ev : event)
    (rounds_table : gmap string dict) : response * gmap string dict :=
  let http_method := httpMethod ev in
  let path := path ev in
  let user_id := claims ev ≫= sub in
  let user_email := claims ev ≫= email in
  if String.eqb http_method "GET" then
    if contains "/config/" path
    then (handle_get_round_config ev user_id user_email rounds_table,
          rounds_table)
    else if endswith "/solved" path
    then (handle_get_solved_rounds ev user_id user_email rounds_table,
          rounds_table)
    else if endswith "/baseline" path
    then (handle_get_baseline_rounds ev user_id user_email rounds_table,
          rounds_table)
    else if endswith "/user-submitted" path
    then (handle_get_user_submitted_rounds ev user_id user_email rounds_table,
          rounds_table)
    else if endswith "/user-completed" path
    then (handle_get_user_submitted_rounds ev user_id user_email rounds_table,
          rounds_table)
    else if is_specific_round_path path
    then (handle_get_specific_round ev user_id user_email rounds_table,
          rounds_table)
    else (handle_get_rounds ev user_id user_email rounds_table, rounds_table)
  else if String.eqb http_method "POST" then
    if contains "/config/" path
    then handle_create_round_with_config_id now_ms now ev user_id user_email
           rounds_table
    else handle_create_round now_ms now ev user_id user_email rounds_table
  else if String.eqb http_method "DELETE" then
    handle_delete_round ev user_id user_email rounds_table
  else (create_response 405 (error_body "Method not allowed"), rounds_table).

End Rounds.

(** ** index.py, the older rounds handler *)

Module Index.

Definition cors_headers : list (string * string) := Rounds.cors_headers.

Definition create_response (status_code : Z) (body : value) : response :=
  Response status_code cors_headers
    (if truthy body then Json body else NoContent).

Definition error_body (message : string) : value :=
  VDict [("error", VStr message)].

Fixpoint convert_decimals (obj : value) : value :=
  match obj with
  | VList l => VList (map convert_decimals l)
  | VDict d =>
      VDict (map (λ kv : string * value,
                    match kv with
                    | (key, v) => (key, convert_decimals v)
                    end) d)
  | v => v
  end.

Definition handle_get_rounds (ev : event) (user_id user_email : option string)
    (rounds_table : gmap string dict) : response :=
  let rounds := VList (VDict <$> Rounds.scan rounds_table) in
  let rounds := convert_decimals rounds in
  create_response 200 rounds.

Definition handle_create_round (now_ms : Z) (now : string) (ev : event)
    (user_id user_email : option string)
    (rounds_table : gmap string dict) : response * gmap string dict :=
  try_except
    (if Rounds.no_body (body ev)
     then Ok (create_response 400 (error_body "Request body is required"),
              rounds_table)
     else
     body ← Rounds.loads (body ev);
     has_name ← contains_key "roundName" body;
     missing ← (if negb has_name then Ok true
                else negb <$> contains_key "puzzleStates" body);
     if (missing : bool)
     then Ok (create_response 400
                (error_body "Missing required fields: roundName, puzzleStates"),
              rounds_table)
     else
     let round_id := Rounds.new_round_id now_ms in
     round_name ← subscript body "roundName";
     puzzle_states ← subscript body "puzzleStates";
     let round_item : dict :=
       [("roundId", VStr round_id);
        ("roundName", round_name);
        ("puzzleStates", puzzle_states);
        ("authorEmail", of_opt_str user_email);
        ("authorId", of_opt_str user_id);
        ("createdAt", VStr now)] in
     round_item ← Rounds.copy_if_present "configId" body round_item;
     rounds_table' ← Rounds.put_item round_item rounds_table;
     Ok (create_response 201 (VDict round_item), rounds_table'))
    (λ _, (create_response 500 (error_body "Failed to create round"),
           rounds_table)).

(** [if k in body: puzzle_state[k'] = body[k]] *)
Definition copy_as (k k' : string) (body : value) (puzzle_state : dict)
  : result dict :=
  present ← contains_key k body;
  if (present : bool)
  then v ← subscript body k; Ok (dict_set k' v puzzle_state)
  else Ok puzzle_state.

Definition handle_create_round_with_config_id (now_ms : Z) (now : string)
    (ev : event) (user_id user_email : option string)
    (rounds_table : gmap string dict) : response * gmap string dict :=
  let path_parts := split "/" (path ev) in
  if (length path_parts <? 4)%nat
  then (create_response 400 (error_body "Config ID is required in path"),
        rounds_table)
  else
  try_except
    (config_id ← index path_parts 3;
     if Rounds.no_body (body ev)
     then Ok (create_response 400 (error_body "Request body is required"),
              rounds_table)
     else
     body ← Rounds.loads (body ev);
     given_name ← attr_get body "roundName";
     let round_name :=
       if truthy given_name then given_name
       else VStr ("Round from config " +:+ config_id) in
     has_states ← contains_key "puzzleStates" body;
     puzzle_states ←
       (if (has_states : bool) then subscript body "puzzleStates"
        else
          puzzle_state ←
            copy_as "initialRobotPositions" "initialRobotPositions" body [];
          puzzle_state ←
            copy_as "targetPositions" "targetPosition" body puzzle_state;
          puzzle_state ← copy_as "walls" "walls" body puzzle_state;
          puzzle_state ← copy_as "targets" "targets" body puzzle_state;
          Ok (match puzzle_state with
              | [] => VList []
              | _ => VList [VDict puzzle_state]
              end));
     if negb (truthy puzzle_states)
     then Ok (create_response 400
                (error_body "puzzleStates or legacy round data is required"),
              rounds_table)
     else
     let round_id := Rounds.new_round_id now_ms in
     let round_item : dict :=
       [("roundId", VStr round_id);
        ("roundName", round_name);
        ("puzzleStates", puzzle_states);
        ("configId", VStr config_id);
        ("authorEmail", of_opt_str user_email);
        ("authorId", of_opt_str user_id);
        ("createdAt", VStr now)] in
     rounds_table' ← Rounds.put_item round_item rounds_table;
     Ok (create_response 201 (VDict round_item), rounds_table'))
    (λ _, (create_response 500 (error_body "Failed to create round"),
           rounds_table)).

Definition handle_delete_round (ev : event) (user_id user_email : option string)
    (rounds_table : gmap string dict) : response * gmap string dict :=
  let path_parts := split "/" (path ev) in
  if (length path_parts <? 3)%nat
  then (create_response 400 (error_body "Round ID is required"), rounds_table)
  else
  try_except
    (round_id ← index path_parts 2;
     match Rounds.get_item round_id rounds_table with
     | None =>
         Ok (create_response 404 (error_body "Round not found"), rounds_table)
     | Some round_item =>
         if negb (py_eq (get "authorEmail" round_item) (of_opt_str user_email))
         then Ok (create_response 403
                    (error_body "You can only delete your own rounds"),
                  rounds_table)
         else Ok (create_response 200
                    (VDict [("message", VStr "Round deleted successfully")]),
                  Rounds.delete_item round_id rounds_table)
     end)
    (λ _, (create_response 500 (error_body "Failed to delete round"),
           rounds_table)).

Definition handle_get_round_config (ev : event)
    (user_id user_email : option string)
    (rounds_table : gmap string dict) : response :=
  let path_parts := split "/" (path ev) in
  if (length path_parts <? 4)%nat
  then create_response 400 (error_body "Round ID is required")
  else
  try_except
    (round_id ← index path_parts 3;
     match Rounds.get_item round_id rounds_table with
     | None => Ok (create_response 404 (error_body "Round not found"))
     | Some round_item =>
         Ok (create_response 200 (convert_decimals (VDict round_item)))
     end)
    (λ _, create_response 500
            (error_body "Failed to retrieve round configuration")).

Definition lambda_handler (now_ms : Z) (now : string) (ev : event)
    (rounds_table : gmap string dict) : response * gmap string dict :=
  let http_method := httpMethod ev in
  let path := path ev in
  let user_id := claims ev ≫= sub in
  let user_email := claims ev ≫= email in
  if String.eqb http_method "GET" then
    if contains "/config/" path
    then (handle_get_round_config ev user_id user_email rounds_table,
          rounds_table)
    else (handle_get_rounds ev user_id user_email rounds_table, rounds_table)
  else if String.eqb http_method "POST" then
    if contains "/config/" path
    then handle_create_round_with_config_id now_ms now ev user_id user_email
           rounds_table
    else handle_create_round now_ms now ev user_id user_email rounds_table
  else if String.eqb http_method "DELETE" then
    handle_delete_round ev user_id user_email rounds_table
  else (create_response 405 (error_body "Method not allowed"), rounds_table).

End Index.

(** ** user-profiles.py *)

Module Profiles.

Definition cors_headers : list (string * string) :=
  [("Access-Control-Allow-Origin", "*");
   ("Access-Control-Allow-Headers",
    "Content-Type,X-Amz-Date,Authorization,X-Api-Key,X-Amz-Security-Token");
   ("Access-Control-Allow-Methods", "GET,PUT,POST,DELETE,OPTIONS")].

Definition success_response (data : value) : response :=
  Response 200 cors_headers (Json data).

Definition error_response (status_code : Z) (message : text) : response :=
  Response status_code cors_headers (Error message).

Definition cors_response : response := Response 200 cors_headers NoContent.

(** The table, keyed by userId. *)

Definition get_item (user_id : string) (profiles_table : gmap string dict)
  : option dict :=
  profiles_table !! user_id.

Definition put_item (item : dict) (profiles_table : gmap string dict)
  : result (gmap string dict) :=
  uid ← key_attr (get "userId" item);
  Ok (<[uid := item]> profiles_table).

Definition get_user_profile (now : string) (user_id : string)
    (user_email : option string) (profiles_table : gmap string dict)
  : response :=
  match get_item user_id profiles_table with
  | Some profile => success_response (VDict profile)
  | None =>
      success_response
        (VDict [("userId", VStr user_id);
                ("email", of_opt_str user_email);
                ("username", VNone);
                ("createdAt", VStr now)])
  end.

(** The checks on a [username] that is a string; [inl] is the rejection,
    [inr] the stripped name. *)
Definition validate_username (username : string) : response + string :=
  let username := strip username in
  if (String.length username <? 3)%nat
  then inl (error_response 400
              (Lit "Username must be at least 3 characters long"))
  else if (20 <? String.length username)%nat
  then inl (error_response 400
              (Lit "Username must be no more than 20 characters long"))
  else if negb (isalnum (remove_char "-" (remove_char "_" username)))
  then inl (error_response 400
              (Lit ("Username can only contain letters, numbers, "
                    +:+ "hyphens, and underscores")))
  else inr username.

Definition protected_field (key : string) : bool :=
  String.eqb key "userId" || String.eqb key "email"
  || String.eqb key "createdAt" || String.eqb key "updatedAt".

(** The loop that copies the other fields of the request into [profile]. *)
Fixpoint merge_fields (profile_data : dict) (profile : dict) : dict :=
  match profile_data with
  | [] => profile
  | (key, v) :: rest =>
      merge_fields rest
        (if protected_field key then profile
         else match v with
              | VNone => profile
              | _ => dict_set key v profile
              end)
  end.

(** [now] and [now'] are the first and the second reading of the clock. *)
Definition update_user_profile (now now' : string) (user_id : string)
    (user_email : option string) (profile_data : value)
    (profiles_table : gmap string dict) : response * gmap string dict :=
  try_except
    (match profile_data with
     | VDict data =>
         let save (username : option string) :=
           let profile : dict :=
             match get_item user_id profiles_table with
             | Some existing => dict_set "updatedAt" (VStr now) existing
             | None =>
                 [("userId", VStr user_id);
                  ("email", of_opt_str user_email);
                  ("createdAt", VStr now);
                  ("updatedAt", VStr now')]
             end in
           let profile :=
             match username with
             | Some name => dict_set "username" (VStr name) profile
             | None => profile
             end in
           let profile := merge_fields data profile in
           profiles_table' ← put_item profile profiles_table;
           Ok (success_response (VDict profile), profiles_table') in
         match get "username" data with
         | VNone => save None
         | VStr username =>
             match validate_username username with
             | inl rejection => Ok (rejection, profiles_table)
             | inr username => save (Some username)
             end
         | _ =>
             Ok (error_response 400 (Lit "Username must be a string"),
                 profiles_table)
         end
     | _ =>
         Ok (error_response 400 (Lit "Profile data must be an object"),
             profiles_table)
     end)
    (λ e, (error_response 500 (LitExn "Failed to update user profile: " e),
           profiles_table)).

Definition get_username_by_user_id (target_user_id : string)
    (profiles_table : gmap string dict) : response :=
  match get_item target_user_id profiles_table with
  | Some profile =>
      success_response
        (VDict [("userId", VStr target_user_id);
                ("username", get "username" profile);
                ("email", get "email" profile)])
  | None =>
      success_response
        (VDict [("userId", VStr target_user_id);
                ("username", VNone);
                ("email", VNone)])
  end.

(** [json.loads(event.get('body', '{}'))] *)
Definition loads (b : raw_body) : result value :=
  match b with
  | BodyNull => Raise TypeError
  | BodyEmpty | BodyMalformed => Raise JSONDecodeError
  | BodyJson v => Ok v
  end.

Definition lambda_handler (now now' : string) (ev : event)
    (profiles_table : gmap string dict) : response * gmap string dict :=
  try_except
    (let http_method := httpMethod ev in
     let path := path ev in
     if String.eqb http_method "OPTIONS"
     then Ok (cors_response, profiles_table)
     else
     let user_id := claims ev ≫= sub in
     let user_email := claims ev ≫= email in
     match user_id with
     | None =>
         Ok (error_response 401 (Lit "Unauthorized: No user ID found"),
             profiles_table)
     | Some user_id =>
       if String.eqb user_id ""
       then Ok (error_response 401 (Lit "Unauthorized: No user ID found"),
                profiles_table)
       else
       if String.eqb http_method "GET" then
         if contains "/user/username/" path
         then
           let target_user_id := List.last (split "/" path) "" in
           Ok (get_username_by_user_id target_user_id profiles_table,
               profiles_table)
         else Ok (get_user_profile now user_id user_email profiles_table,
                  profiles_table)
       else if String.eqb http_method "PUT" then
         body ← loads (body ev);
         Ok (update_user_profile now now' user_id user_email body
               profiles_table)
       else
         Ok (error_response 405
               (Lit ("Method " +:+ http_method +:+ " not allowed")),
             profiles_table)
     end)
    (λ e, match e with
          | JSONDecodeError =>
              (error_response 400 (Lit "Invalid JSON in request body"),
               profiles_table)
          | _ =>
              (error_response 500 (LitExn "Internal server error: " e),
               profiles_table)
          end).

End Profiles.

(** * Vocabulary of the statements *)

(** Induction on values, through the lists and dictionaries they hold. *)

Section value_induction.

Variable P : value → Prop.
Hypothesis HNone : P VNone.
Hypothesis HBool : ∀ b, P (VBool b).
Hypothesis HInt : ∀ z, P (VInt z).
Hypothesis HStr : ∀ s, P (VStr s).
Hypothesis HList : ∀ l, Forall P l → P (VList l).
Hypothesis HDict : ∀ d, Forall (λ kv, P kv.2) d → P (VDict d).

Fixpoint value_nested_ind (v : value) : P v :=
  match v with
  | VNone => HNone
  | VBool b => HBool b
  | VInt z => HInt z
  | VStr s => HStr s
  | VList l =>
      HList l ((fix all (l : list value) : Forall P l :=
                  match l with
                  | [] => Forall_nil P
                  | x :: l' => Forall_cons P x l' (value_nested_ind x) (all l')
                  end) l)
  | VDict d =>
      HDict d ((fix all (d : list (string * value))
                  : Forall (λ kv, P kv.2) d :=
                  match d with
                  | [] => Forall_nil _
                  | (k, x) :: d' =>
                      Forall_cons (λ kv, P kv.2) (k, x) d'
                        (value_nested_ind x) (all d')
                  end) d)
  end.

End value_induction.

(** The record [submit_score] writes. *)
Definition score_record (now round_id user_id : string) (moves : value)
    (move_sequence : list value) (attempt_count : Z)
    (user_email : option string) : dict :=
  [("roundId", VStr round_id);
   ("userId", VStr user_id);
   ("moves", moves);
   ("moveSequence", VList move_sequence);
   ("completedAt", VStr now);
   ("attemptCount", VInt attempt_count);
   ("userEmail", of_opt_str user_email)].

(** The 201 response of an accepted submission. *)
Definition accepted (moves : value) (attempt_count : Z) : response :=
  Response 201 Scores.cors_headers
    (Json (VDict [("message", VStr "Score submitted successfully");
                  ("moves", moves);
                  ("personalBest", VBool true);
                  ("attemptCount", VInt attempt_count)])).

(** The 200 response of a submission that does not improve on the record. *)
Definition not_improved (current_best submitted : Z) : response :=
  Response 200 Scores.cors_headers
    (Json (VDict [("message", VStr "Score not improved");
                  ("currentBest", VInt current_best);
                  ("submitted", VInt submitted);
                  ("personalBest", VBool false)])).

(** The bound below which an attempt count and its successor are the same
    number as an integer, as the decimal of the table and as the float
    that a response carries: 2^53. *)
Definition exact_count_limit : Z := 9007199254740992.

(** Every stored score has a number, or nothing, as its [attemptCount]. *)
Definition counted (scores_table : gmap (string * string) dict) : Prop :=
  ∀ key item,
    scores_table !! key = Some item →
    is_Some (num_of (get_default "attemptCount" (VInt 0) item)).

(** Every item of the table carries its own key. *)
Definition well_keyed (table : gmap (string * string) dict) : Prop :=
  ∀ u c item,
    table !! (u, c) = Some item →
    dict_get "userId" item = Some (VStr u)
    ∧ dict_get "configId" item = Some (VStr c).

(** [z] is the number that [int] reads from a configId stored for [uid]. *)
Definition numeric_id (table : gmap (string * string) dict) (uid : string)
    (z : Z) : Prop :=
  ∃ c, is_Some (table !! (uid, c)) ∧ int_of_str c = Some z.


(** The item [create_configuration] writes. *)
Definition config_record (now user_id config_id : string)
    (walls targets : value) : dict :=
  [("userId", VStr user_id);
   ("configId", VStr config_id);
   ("walls", walls);
   ("targets", targets);
   ("createdAt", VStr now);
   ("updatedAt", VStr now)].

(** The 201 response of [create_configuration]. *)
Definition created (config_id : string) : response :=
  Response 201 Configurations.cors_headers
    (Json (VDict [("configId", VStr config_id)])).


(** The 200 response of [update_configuration]. *)
Definition updated : response :=
  Response 200 Configurations.cors_headers
    (Json (VDict [("message", VStr "Configuration updated successfully")])).

(** The item [update_configuration] writes. *)
Definition updated_record (now user_id config_id : string)
    (walls targets created_at : value) : dict :=
  [("userId", VStr user_id);
   ("configId", VStr config_id);
   ("walls", walls);
   ("targets", targets);
   ("createdAt", created_at);
   ("updatedAt", VStr now)].

(** The responses of [handle_delete_round] and of a get that finds
    nothing. *)
Definition forbidden : response :=
  Response 403 Rounds.cors_headers
    (Json (VDict [("error", VStr "You can only delete your own rounds")])).

Definition deleted : response :=
  Response 200 Rounds.cors_headers
    (Json (VDict [("message", VStr "Round deleted successfully")])).

Definition round_not_found : response :=
  Response 404 Rounds.cors_headers
    (Json (VDict [("error", VStr "Round not found")])).



(** The three grounds on which a username is refused, on the stripped
    name. *)
Definition username_refused (s : string) : Prop :=
  (String.length (strip s) < 3)%nat
  ∨ (20 < String.length (strip s))%nat
  ∨ isalnum (remove_char "-" (remove_char "_" (strip s))) = false.

(** The number a run of decimal digits denotes after the prefix [acc]. *)
Fixpoint uint_value (d : Decimal.uint) (acc : Z) : Z :=
  match d with
  | Decimal.Nil => acc
  | Decimal.D0 l => uint_value l (10 * acc + 0)
  | Decimal.D1 l => uint_value l (10 * acc + 1)
  | Decimal.D2 l => uint_value l (10 * acc + 2)
  | Decimal.D3 l => uint_value l (10 * acc + 3)
  | Decimal.D4 l => uint_value l (10 * acc + 4)
  | Decimal.D5 l => uint_value l (10 * acc + 5)
  | Decimal.D6 l => uint_value l (10 * acc + 6)
  | Decimal.D7 l => uint_value l (10 * acc + 7)
  | Decimal.D8 l => uint_value l (10 * acc + 8)
  | Decimal.D9 l => uint_value l (10 * acc + 9)
  end.




(** A 400 response of rounds.py and index.py. *)
Definition round_refused (message : string) : response :=
  Response 400 Rounds.cors_headers
    (Json (VDict [("error", VStr message)])).



(** Every stored profile carries its own key. *)
Definition keyed_profiles (profiles_table : gmap string dict) : Prop :=
  ∀ u profile,
    profiles_table !! u = Some profile →
    dict_get "userId" profile = Some (VStr u).

(** The profile an update starts from: the stored one with a new
    [updatedAt], or a new one made of the claims and the clock. *)
Definition profile_base (now now' uid : string) (email : option string)
    (profiles_table : gmap string dict) : dict :=
  match profiles_table !! uid with
  | Some existing => dict_set "updatedAt" (VStr now) existing
  | None =>
      [("userId", VStr uid);
       ("email", of_opt_str email);
       ("createdAt", VStr now);
       ("updatedAt", VStr now')]
  end.

(** * Properties *)

(** ** Values *)

Lemma clean_data_for_json_id (v : value) : Scores.clean_data_for_json v = v.
Proof.
  induction v as [| | | |l IH|d IH] using value_nested_ind; simpl; try done.
  - f_equal. induction IH as [|x l Hx _ IHl]; simpl; [done|].
    by rewrite Hx, IHl.
  - f_equal. induction IH as [|[k x] d Hx _ IHd]; simpl; [done|].
    rewrite IHd. simpl in Hx. f_equal. f_equal. by destruct x.
Qed.


Lemma py_eq_of_opt_str (a b : option string) :
  py_eq (of_opt_str a) (of_opt_str b) = bool_decide (a = b).
Proof.
  destruct a as [s|], b as [s'|]; simpl; try done.
  destruct (String.eqb_spec s s') as [->|Hne].
  - by rewrite bool_decide_eq_true_2.
  - rewrite bool_decide_eq_false_2; [done|congruence].
Qed.

(** ** Score submission *)

Section score_submission.

Import Scores.

Lemma get_item_stored (rid uid : string)
    (t : gmap (string * string) dict) :
  rid ≠ "" → uid ≠ "" → get_item (VStr rid) uid t = Ok (t !! (rid, uid)).
Proof.
  intros Hrid Huid. unfold get_item, serialize, table_key. simpl.
  destruct (String.eqb_spec rid "") as [|_]; [done|].
  by destruct (String.eqb_spec uid "").
Qed.

(** The write of [submit_score] goes through when the keys are not empty
    and the client can send the numbers. *)
Lemma put_item_score_record (now rid uid : string) (mv : value)
    (seq : list value) (n : Z) (email : option string)
    (t : gmap (string * string) dict) :
  rid ≠ "" → uid ≠ "" →
  storable mv = true →
  storable (VList seq) = true →
  (Z.abs n < number_limit)%Z →
  put_item (score_record now rid uid mv seq n email) t
  = Ok (<[(rid, uid) := score_record now rid uid mv seq n email]> t).
Proof.
  intros Hrid Huid Hmv Hseq Hn.
  unfold put_item, serialize, table_key, score_record. simpl in *.
  rewrite Hmv, Hseq. apply Z.ltb_lt in Hn. rewrite Hn.
  destruct email; simpl;
    (destruct (String.eqb_spec rid "") as [|_]; [done|]);
    by destruct (String.eqb_spec uid "").
Qed.

Lemma submit_score_first (now uid rid : string) (d : dict) (mv : value)
    (seq : list value) (email : option string)
    (t : gmap (string * string) dict) :
  rid ≠ "" → uid ≠ "" →
  dict_get "moves" d = Some mv →
  storable mv = true →
  dict_get "moveSequence" d = Some (VList seq) →
  storable (VList seq) = true →
  t !! (rid, uid) = None →
  submit_score now uid (VStr rid) (VDict d) email t =
    (accepted mv 1,
     <[(rid, uid) := score_record now rid uid mv seq 1 email]> t).
Proof.
  intros Hrid Huid Hm Hmv Hs Hseq Hnone.
  pose proof (put_item_score_record now rid uid mv seq 1 email t
                Hrid Huid Hmv Hseq eq_refl) as Hput.
  unfold score_record in Hput.
  unfold submit_score, contains_key, subscript, dict_in, getitem.
  rewrite Hm, Hs, get_item_stored by done.
  destruct seq as [|x seq']; simpl; rewrite Hnone; simpl;
    rewrite Hput; simpl;
    unfold accepted, success_response;
    by rewrite !clean_data_for_json_id.
Qed.

Lemma submit_score_better (now uid rid : string) (d : dict) (m : Z)
    (seq : list value) (email : option string)
    (t : gmap (string * string) dict) (old : dict) (best k : Z) :
  rid ≠ "" → uid ≠ "" →
  dict_get "moves" d = Some (VInt m) →
  (Z.abs m < number_limit)%Z →
  dict_get "moveSequence" d = Some (VList seq) →
  storable (VList seq) = true →
  t !! (rid, uid) = Some old →
  dict_get "moves" old = Some (VInt best) →
  num_of (get_default "attemptCount" (VInt 0) old) = Some k →
  (Z.abs (k + 1) < number_limit)%Z →
  (m < best)%Z →
  submit_score now uid (VStr rid) (VDict d) email t =
    (accepted (VInt m) (k + 1),
     <[(rid, uid) := score_record now rid uid (VInt m) seq (k + 1) email]> t).
Proof.
  intros Hrid Huid Hm Hmv Hs Hseq Hold Hbest Hk Hcount Hlt.
  assert (Hmv' : storable (VInt m) = true) by by apply Z.ltb_lt.
  pose proof (put_item_score_record now rid uid (VInt m) seq (k + 1) email t
                Hrid Huid Hmv' Hseq Hcount) as Hput.
  unfold score_record in Hput.
  unfold submit_score, contains_key, subscript, dict_in, getitem.
  rewrite Hm, Hs, get_item_stored by done.
  destruct seq as [|x seq']; simpl; rewrite Hold; simpl;
    unfold add1; rewrite Hk, Hbest; simpl;
    (destruct (Z.leb_spec best m) as [Hle|_]; [lia|]);
    simpl; rewrite Hput; simpl; unfold accepted, success_response;
    by rewrite !clean_data_for_json_id.
Qed.

(** A lookup that succeeds is one for a string as round id. *)
Lemma get_item_cases (round_id : value) (uid : string)
    (t : gmap (string * string) dict) (existing : option dict) :
  get_item round_id uid t = Ok existing →
  ∃ rid, round_id = VStr rid ∧ existing = t !! (rid, uid).
Proof.
  unfold get_item, serialize, table_key.
  destruct (storable round_id); simpl; [|done].
  destruct round_id as [| | |rid| |]; simpl; try done.
  destruct (String.eqb rid ""); simpl; [done|].
  destruct (String.eqb uid ""); simpl; [done|].
  intros [= <-]. by exists rid.
Qed.

(** A write fails, or stores the item under the keys it carries. *)
Lemma put_item_cases (item : dict) (t : gmap (string * string) dict) :
  (∃ e, put_item item t = Raise e)
  ∨ ∃ rid uid,
      rid ≠ "" ∧ uid ≠ ""
      ∧ dict_get "roundId" item = Some (VStr rid)
      ∧ dict_get "userId" item = Some (VStr uid)
      ∧ storable (VDict item) = true
      ∧ put_item item t = Ok (<[(rid, uid) := item]> t).
Proof.
  unfold put_item, serialize, table_key, get, get_default.
  destruct (storable (VDict item)); simpl; [|left; by eexists].
  destruct (dict_get "roundId" item) as [[| | |rid| |]|]; simpl;
    try (left; by eexists).
  destruct (String.eqb_spec rid "") as [|Hrid]; simpl; [left; by eexists|].
  destruct (dict_get "userId" item) as [[| | |uid| |]|]; simpl;
    try (left; by eexists).
  destruct (String.eqb_spec uid "") as [|Huid]; simpl; [left; by eexists|].
  right. by exists rid, uid.
Qed.

(** What [submit_score] may do to the table: nothing, or one write of a
    record with an integer [attemptCount]. *)
Lemma submit_score_writes (now uid : string) (round_id score_data : value)
    (email : option string) (t : gmap (string * string) dict) :
  (submit_score now uid round_id score_data email t).2 = t
  ∨ ∃ key item n,
      (submit_score now uid round_id score_data email t).2 = <[key := item]> t
      ∧ dict_get "attemptCount" item = Some (VInt n).
Proof.
  unfold submit_score.
  destruct (contains_key "moves" score_data) as [[|]|]; simpl;
    [|by left|by left].
  destruct (contains_key "moveSequence" score_data) as [[|]|]; simpl;
    [|by left|by left].
  destruct (subscript score_data "moves") as [moves|]; simpl; [|by left].
  destruct (subscript score_data "moveSequence") as [sequence|]; simpl;
    [|by left].
  destruct (if truthy sequence then len sequence else Ok 0%nat); simpl;
    [|by left].
  assert (Hsave : ∀ n response,
            (try_except
               (put_item
                  [("roundId", round_id); ("userId", VStr uid);
                   ("moves", moves); ("moveSequence", sequence);
                   ("completedAt", VStr now); ("attemptCount", VInt n);
                   ("userEmail", of_opt_str email)] t
                ≫= λ t', Ok (response, t'))
               (λ e, (error_response 500 (LitExn "Failed to submit score: " e),
                      t))).2 = t
            ∨ ∃ key item n',
                (try_except
                   (put_item
                      [("roundId", round_id); ("userId", VStr uid);
                       ("moves", moves); ("moveSequence", sequence);
                       ("completedAt", VStr now); ("attemptCount", VInt n);
                       ("userEmail", of_opt_str email)] t
                    ≫= λ t', Ok (response, t'))
                   (λ e, (error_response 500
                            (LitExn "Failed to submit score: " e), t))).2
                = <[key := item]> t
                ∧ dict_get "attemptCount" item = Some (VInt n')).
  { intros n response.
    destruct (put_item_cases
                [("roundId", round_id); ("userId", VStr uid);
                 ("moves", moves); ("moveSequence", sequence);
                 ("completedAt", VStr now); ("attemptCount", VInt n);
                 ("userEmail", of_opt_str email)] t)
      as [[e ->]|(rid & uid' & _ & _ & _ & _ & _ & ->)]; simpl; [by left|].
    right. by eexists _, _, _. }
  destruct (get_item round_id uid t) as [[old|]|]; simpl; [| |by left].
  - unfold add1.
    destruct (num_of (get_default "attemptCount" (VInt 0) old)) as [k|];
      simpl; [|by left].
    destruct (getitem "moves" old) as [best|]; simpl; [|by left].
    destruct (py_ge moves best) as [[|]|]; simpl; [| |by left].
    + destruct (py_int best); simpl; by left.
    + apply Hsave.
  - apply Hsave.
Qed.

(** Stored attempt counts stay numbers. *)
Lemma submit_score_keeps_counts (now uid : string)
    (round_id score_data : value) (email : option string)
    (t : gmap (string * string) dict) :
  counted t → counted (submit_score now uid round_id score_data email t).2.
Proof.
  intros Hcounted.
  destruct (submit_score_writes now uid round_id score_data email t)
    as [->|(key & item & n & -> & Hn)]; [done|].
  intros key' item' [[-> ->]|[_ Hold]]%lookup_insert_Some.
  - unfold get_default. rewrite Hn. by eexists.
  - by eapply Hcounted.
Qed.

(** X1.  A POST with a subject id and an object as its body reaches
    [submit_score] with the round id of the path, or else of the body. *)
Lemma lambda_handler_post_submits
    (leaderboard_index : gmap (string * string) dict → string → list dict)
    (now : string) (ev : event) (bag : claims_bag) (uid rid : string)
    (d : dict) (t : gmap (string * string) dict) :
  httpMethod ev = "POST" →
  claims ev = Some bag →
  sub bag = Some uid →
  uid ≠ "" →
  body ev = BodyJson (VDict d) →
  rid ≠ "" →
  param "roundId" (default [] (pathParameters ev)) = Some rid
  ∨ (blank (param "roundId" (default [] (pathParameters ev))) = true
     ∧ dict_get "roundId" d = Some (VStr rid)) →
  lambda_handler leaderboard_index now ev t =
    submit_score now uid (VStr rid) (VDict d) (email bag) t.
Proof.
  intros Hmethod Hclaims Hsub Huid Hbody Hrid Hresolved.
  unfold lambda_handler.
  rewrite Hmethod, Hclaims, Hbody. simpl. rewrite Hsub.
  destruct (String.eqb_spec uid "") as [|_]; [done|].
  destruct Hresolved as [Hpath|[Hblank Hdata]].
  - rewrite Hpath. simpl.
    destruct (String.eqb_spec rid "") as [|_]; [done|]. simpl.
    by destruct (String.eqb_spec rid "").
  - rewrite Hblank. simpl. unfold get, get_default. rewrite Hdata. simpl.
    by destruct (String.eqb_spec rid "").
Qed.

(** C1 (as amended).  A submission by a user [uid] for a round id [rid],
    neither empty, whose body holds an integer [moves] of at most 38
    digits and a list [moveSequence] without a longer number: when the
    table has no record at [(rid, uid)], the record with the submitted
    moves and sequence, the time of the request and [attemptCount = 1] is
    stored and the response is 201 with [personalBest] true; when it has
    a record whose integer [moves] exceeds the submitted count and whose
    [attemptCount] is a number [k] with [0 ≤ k < 2^53], or is missing
    ([k = 0]), the record is replaced by the new one, whose [attemptCount]
    is [k + 1], and the response is 201 with [personalBest] true and that
    [attemptCount]. *)
Theorem submit_score_stores_personal_best (now uid rid : string) (d : dict)
    (m : Z) (seq : list value) (email : option string) :
  uid ≠ "" →
  rid ≠ "" →
  dict_get "moves" d = Some (VInt m) →
  (Z.abs m < number_limit)%Z →
  dict_get "moveSequence" d = Some (VList seq) →
  storable (VList seq) = true →
  (∀ t : gmap (string * string) dict,
     t !! (rid, uid) = None →
     submit_score now uid (VStr rid) (VDict d) email t =
       (accepted (VInt m) 1,
        <[(rid, uid) := score_record now rid uid (VInt m) seq 1 email]> t))
  ∧
  (∀ (t : gmap (string * string) dict) (old : dict) (best k : Z),
     t !! (rid, uid) = Some old →
     dict_get "moves" old = Some (VInt best) →
     num_of (get_default "attemptCount" (VInt 0) old) = Some k →
     (0 ≤ k < exact_count_limit)%Z →
     (m < best)%Z →
     submit_score now uid (VStr rid) (VDict d) email t =
       (accepted (VInt m) (k + 1),
        <[(rid, uid) := score_record now rid uid (VInt m) seq (k + 1) email]> t)).
Proof.
  intros Huid Hrid Hm Hlimit Hs Hseq. split.
  - intros t Hnone. apply submit_score_first; try done.
    by apply Z.ltb_lt.
  - intros t old best k Hold Hbest Hk Hcount Hlt.
    eapply submit_score_better; try done.
    unfold exact_count_limit in Hcount. unfold number_limit. lia.
Qed.

(** C2 (as amended).  A submission by a user [uid] for a round id [rid],
    neither empty, whose body holds an integer [moves] and a list
    [moveSequence], when the table has a record at [(rid, uid)] whose
    integer [moves] is not above the submitted count: the table after the
    request is the table before it, and the response is 200 with the
    stored best, the submitted count and [personalBest] false. *)
Theorem submit_score_not_improved_keeps_record (now uid rid : string)
    (d : dict) (m : Z) (seq : list value) (email : option string)
    (t : gmap (string * string) dict) (old : dict) (best k : Z) :
  uid ≠ "" →
  rid ≠ "" →
  dict_get "moves" d = Some (VInt m) →
  dict_get "moveSequence" d = Some (VList seq) →
  t !! (rid, uid) = Some old →
  dict_get "moves" old = Some (VInt best) →
  num_of (get_default "attemptCount" (VInt 0) old) = Some k →
  (best ≤ m)%Z →
  submit_score now uid (VStr rid) (VDict d) email t = (not_improved best m, t).
Proof.
  intros Huid Hrid Hm Hs Hold Hbest Hk Hle.
  unfold submit_score, contains_key, subscript, dict_in, getitem.
  rewrite Hm, Hs, get_item_stored by done.
  destruct seq as [|x seq']; simpl; rewrite Hold; simpl;
    unfold add1; rewrite Hk, Hbest; simpl;
    (destruct (Z.leb_spec best m) as [_|Hlt]; [|lia]);
    simpl; unfold not_improved, success_response;
    by rewrite !clean_data_for_json_id.
Qed.

End score_submission.

(** The scenario of the specification: 20 moves, then 15, then 25, by one
    user on one round. *)
Example twenty_then_fifteen_then_twenty_five :
  let submit (now : string) (moves : Z) :=
    Scores.submit_score now "u1" (VStr "r1")
      (VDict [("moves", VInt moves); ("moveSequence", VList [])])
      (Some "ann@x.org") in
  let first := submit "t1" 20%Z ∅ in
  let second := submit "t2" 15%Z first.2 in
  let third := submit "t3" 25%Z second.2 in
  first.1 = accepted (VInt 20) 1
  ∧ second.1 = accepted (VInt 15) 2
  ∧ second.2 !! ("r1", "u1")
    = Some (score_record "t2" "r1" "u1" (VInt 15) [] 2 (Some "ann@x.org"))
  ∧ third.1 = not_improved 15 25
  ∧ third.2 = second.2.
Proof. cbv zeta. split_and!; vm_compute; reflexivity. Qed.

Lemma submit_score_stores_personal_best_witness :
  Scores.submit_score "t1" "u1" (VStr "r1")
    (VDict [("moves", VInt 15); ("moveSequence", VList [VStr "red-up"])])
    (Some "a@b.c") ∅
  = (accepted (VInt 15) 1,
     <[("r1", "u1") :=
         score_record "t1" "r1" "u1" (VInt 15) [VStr "red-up"] 1 (Some "a@b.c")]> ∅)
  ∧
  Scores.submit_score "t1" "u1" (VStr "r1")
    (VDict [("moves", VInt 15); ("moveSequence", VList [VStr "red-up"])])
    (Some "a@b.c")
    {[("r1", "u1") := score_record "t0" "r1" "u1" (VInt 20) [] 1 (Some "a@b.c")]}
  = (accepted (VInt 15) (1 + 1),
     <[("r1", "u1") :=
         score_record "t1" "r1" "u1" (VInt 15) [VStr "red-up"] (1 + 1)
           (Some "a@b.c")]>
       {[("r1", "u1") := score_record "t0" "r1" "u1" (VInt 20) [] 1 (Some "a@b.c")]}).
Proof.
  assert (Hne : ∀ s : string, s = "u1" ∨ s = "r1" → s ≠ "")
    by (intros s [->| ->]; discriminate).
  destruct (submit_score_stores_personal_best "t1" "u1" "r1"
              [("moves", VInt 15); ("moveSequence", VList [VStr "red-up"])]
              15 [VStr "red-up"] (Some "a@b.c")
              (Hne _ (or_introl eq_refl)) (Hne _ (or_intror eq_refl))
              eq_refl eq_refl eq_refl eq_refl) as [Hfirst Hbetter].
  split.
  - apply Hfirst. apply lookup_empty.
  - apply (Hbetter _ (score_record "t0" "r1" "u1" (VInt 20) [] 1 (Some "a@b.c"))
             20%Z 1%Z).
    + apply lookup_singleton_eq.
    + reflexivity.
    + reflexivity.
    + split; reflexivity || discriminate.
    + reflexivity.
Defined.

(** The claim C1 as stated fails.  A body that holds [moves] and a
    [moveSequence] that is a number is answered 500 and nothing is stored:
    the handler takes the length of the sequence.  So is a body whose
    [moves] has more than 38 digits, which the table client refuses. *)
Lemma submit_score_fields_present_not_stored :
  Scores.submit_score "t1" "u1" (VStr "r1")
    (VDict [("moves", VInt 15); ("moveSequence", VInt 5)]) None ∅
  = (Response 500 Scores.cors_headers
       (Error (LitExn "Failed to submit score: " TypeError)), ∅)
  ∧
  Scores.submit_score "t1" "u1" (VStr "r1")
    (VDict [("moves", VInt (2 ^ 130)); ("moveSequence", VList [])]) None ∅
  = (Response 500 Scores.cors_headers
       (Error (LitExn "Failed to submit score: " ArithmeticError)), ∅).
Proof. split; vm_compute; reflexivity. Qed.

Lemma submit_score_not_improved_keeps_record_witness :
  Scores.submit_score "t2" "u1" (VStr "r1")
    (VDict [("moves", VInt 25); ("moveSequence", VList [])]) None
    {[("r1", "u1") := score_record "t1" "r1" "u1" (VInt 15) [] 2 None]}
  = (not_improved 15 25,
     {[("r1", "u1") := score_record "t1" "r1" "u1" (VInt 15) [] 2 None]}).
Proof.
  apply (submit_score_not_improved_keeps_record "t2" "u1" "r1"
           [("moves", VInt 25); ("moveSequence", VList [])] 25 [] None
           _ (score_record "t1" "r1" "u1" (VInt 15) [] 2 None) 15%Z 2%Z).
  - discriminate.
  - discriminate.
  - reflexivity.
  - reflexivity.
  - apply lookup_singleton_eq.
  - reflexivity.
  - reflexivity.
  - lia.
Defined.

(** The claim C2 as stated fails: on a stored best of 15, a submission of
    25 moves whose [moveSequence] is a number is answered 500, not with
    the stored best. *)
Lemma submit_score_not_improved_not_answered :
  Scores.submit_score "t2" "u1" (VStr "r1")
    (VDict [("moves", VInt 25); ("moveSequence", VInt 5)]) None
    {[("r1", "u1") := score_record "t1" "r1" "u1" (VInt 15) [] 2 None]}
  = (Response 500 Scores.cors_headers
       (Error (LitExn "Failed to submit score: " TypeError)),
     {[("r1", "u1") := score_record "t1" "r1" "u1" (VInt 15) [] 2 None]}).
Proof. vm_compute. reflexivity. Qed.

(** ** Identity claims and preflight requests *)

(** C3 (as amended).  A request whose method is not OPTIONS and whose
    claims carry no subject id, or an empty one, is answered 401 by the
    scores handler and by the profile handler, and neither writes. *)
Theorem missing_subject_is_unauthorized
    (leaderboard_index : gmap (string * string) dict → string → list dict)
    (now now' : string) (ev : event)
    (scores_table : gmap (string * string) dict)
    (profiles_table : gmap string dict) :
  httpMethod ev ≠ "OPTIONS" →
  blank (claims ev ≫= sub) = true →
  Scores.lambda_handler leaderboard_index now ev scores_table =
    (Response 401 Scores.cors_headers
       (Error (Lit "Unauthorized: No user ID found")), scores_table)
  ∧
  Profiles.lambda_handler now now' ev profiles_table =
    (Response 401 Profiles.cors_headers
       (Error (Lit "Unauthorized: No user ID found")), profiles_table).
Proof.
  intros Hmethod Hblank.
  unfold Scores.lambda_handler, Profiles.lambda_handler.
  destruct (String.eqb_spec (httpMethod ev) "OPTIONS") as [Heq|_]; [done|].
  destruct (claims ev ≫= sub) as [uid|]; simpl in *; [|done].
  by rewrite Hblank.
Qed.

Lemma missing_subject_is_unauthorized_witness :
  Scores.lambda_handler (λ _ _, []) "t" (Event "GET" "/scores" None None BodyNull) ∅ =
    (Response 401 Scores.cors_headers
       (Error (Lit "Unauthorized: No user ID found")), ∅)
  ∧
  Profiles.lambda_handler "t" "t'" (Event "GET" "/scores" None None BodyNull) ∅ =
    (Response 401 Profiles.cors_headers
       (Error (Lit "Unauthorized: No user ID found")), ∅).
Proof.
  apply (missing_subject_is_unauthorized (λ _ _, []) "t" "t'"
           (Event "GET" "/scores" None None BodyNull) ∅ ∅).
  - discriminate.
  - reflexivity.
Defined.

(** The claim C3 as stated fails: without any claims, the rounds handler
    lists the rounds with status 200 and the configurations handler
    answers 400. *)
Lemma missing_subject_not_401_for_rounds_and_configurations :
  blank (claims (Event "GET" "/rounds" None None BodyNull) ≫= sub) = true
  ∧ statusCode (Rounds.lambda_handler 0 "t"
                  (Event "GET" "/rounds" None None BodyNull) ∅).1 = 200%Z
  ∧ statusCode (Configurations.lambda_handler "t"
                  (Event "GET" "/configurations" None None BodyNull) ∅).1 = 400%Z.
Proof. repeat split. Qed.

(** C5 (as amended).  A request with method OPTIONS is answered 200 with
    the handler's CORS header set and an empty body by the scores handler
    and the profile handler, whatever the route and the claims, and by the
    configurations handler when the claims carry a subject id. *)
Theorem options_is_preflight
    (leaderboard_index : gmap (string * string) dict → string → list dict)
    (now now' : string) (ev : event)
    (scores_table : gmap (string * string) dict)
    (profiles_table : gmap string dict)
    (table : gmap (string * string) dict) :
  httpMethod ev = "OPTIONS" →
  Scores.lambda_handler leaderboard_index now ev scores_table =
    (Response 200 Scores.cors_headers NoContent, scores_table)
  ∧
  Profiles.lambda_handler now now' ev profiles_table =
    (Response 200 Profiles.cors_headers NoContent, profiles_table)
  ∧
  (is_Some (claims ev ≫= sub) →
   Configurations.lambda_handler now ev table =
     (Response 200 Configurations.cors_headers NoContent, table)).
Proof.
  intros Hmethod.
  unfold Scores.lambda_handler, Profiles.lambda_handler,
    Configurations.lambda_handler.
  rewrite Hmethod. simpl. repeat split.
  intros [uid Huid].
  destruct (claims ev) as [bag|]; simpl in *; [|done].
  by rewrite Huid.
Qed.

Lemma options_is_preflight_witness :
  Scores.lambda_handler (λ _ _, []) "t"
    (Event "OPTIONS" "/scores/r1" None (Some (Claims (Some "u1") None))
       BodyNull) ∅ =
    (Response 200 Scores.cors_headers NoContent, ∅)
  ∧
  Profiles.lambda_handler "t" "t'"
    (Event "OPTIONS" "/scores/r1" None (Some (Claims (Some "u1") None))
       BodyNull) ∅ =
    (Response 200 Profiles.cors_headers NoContent, ∅)
  ∧
  Configurations.lambda_handler "t"
    (Event "OPTIONS" "/scores/r1" None (Some (Claims (Some "u1") None))
       BodyNull) ∅ =
    (Response 200 Configurations.cors_headers NoContent, ∅).
Proof.
  destruct (options_is_preflight (λ _ _, []) "t" "t'"
              (Event "OPTIONS" "/scores/r1" None
                 (Some (Claims (Some "u1") None)) BodyNull)
              ∅ ∅ ∅ eq_refl) as (Hs & Hp & Hc).
  split; [exact Hs|]. split; [exact Hp|].
  apply Hc. by exists "u1".
Defined.

(** The claim C5 as stated fails: the rounds handler, in both versions,
    answers OPTIONS with 405 and a body, and the configurations handler
    answers 400 when the preflight carries no claims. *)
Lemma options_not_200_for_rounds_and_configurations :
  Rounds.lambda_handler 0 "t" (Event "OPTIONS" "/rounds" None None BodyNull) ∅
  = (Response 405 Rounds.cors_headers
       (Json (VDict [("error", VStr "Method not allowed")])), ∅)
  ∧ Index.lambda_handler 0 "t" (Event "OPTIONS" "/rounds" None None BodyNull) ∅
  = (Response 405 Index.cors_headers
       (Json (VDict [("error", VStr "Method not allowed")])), ∅)
  ∧ statusCode (Configurations.lambda_handler "t"
                  (Event "OPTIONS" "/configurations" None None BodyNull) ∅).1
    = 400%Z.
Proof. repeat split. Qed.

(** ** Configuration ids *)

Section configuration_ids.

Import Configurations.

Lemma elem_of_query (uid : string) (table : gmap (string * string) dict)
    (item : dict) :
  item ∈ query uid table ↔ ∃ c, table !! (uid, c) = Some item.
Proof.
  unfold query. rewrite list_elem_of_fmap. split.
  - intros ([[u c] it] & -> & Hin).
    apply elem_of_map_to_list, map_lookup_filter_Some in Hin as [Hin Hu].
    simpl in Hu. subst u. by exists c.
  - intros [c Hc]. exists ((uid, c), item). split; [done|].
    by apply elem_of_map_to_list, map_lookup_filter_Some.
Qed.



Lemma existing_ids_of_string_ids (items : list dict) :
  Forall (λ item, ∃ c, dict_get "configId" item = Some (VStr c)) items →
  ∃ ids,
    existing_ids items = Ok ids
    ∧ ∀ z, z ∈ ids ↔
           ∃ item c, item ∈ items
                     ∧ dict_get "configId" item = Some (VStr c)
                     ∧ int_of_str c = Some z.
Proof.
  induction 1 as [|item items [c Hc] _ (ids & Hids & Hspec)].
  - exists []. split; [done|]. intros z. split.
    + intros Hin. by apply elem_of_nil in Hin.
    + intros (item & c & Hin & _). by apply elem_of_nil in Hin.
  - simpl. unfold getitem. rewrite Hc. simpl.
    destruct (int_of_str c) as [n|] eqn:Hn; simpl; rewrite Hids; simpl.
    + exists (n :: ids). split; [done|]. intros z.
      rewrite elem_of_cons, Hspec. split.
      * intros [->|(item' & c' & Hin & Hc' & Hz)].
        -- exists item, c. by rewrite elem_of_cons; auto.
        -- exists item', c'. by rewrite elem_of_cons; auto.
      * intros (item' & c' & Hin & Hc' & Hz).
        apply elem_of_cons in Hin as [->|Hin].
        -- left. congruence.
        -- right. by exists item', c'.
    + exists ids. split; [done|]. intros z. rewrite Hspec. split.
      * intros (item' & c' & Hin & Hc' & Hz).
        exists item', c'. by rewrite elem_of_cons; auto.
      * intros (item' & c' & Hin & Hc' & Hz).
        apply elem_of_cons in Hin as [->|Hin].
        -- congruence.
        -- by exists item', c'.
Qed.

Lemma py_max_upper (xs : list Z) (x : Z) :
  (x ≤ py_max x xs)%Z ∧ ∀ y, y ∈ xs → (y ≤ py_max x xs)%Z.
Proof.
  unfold py_max. revert x.
  induction xs as [|a xs IH]; intros x; simpl.
  - split; [lia|]. intros y Hy. by apply elem_of_nil in Hy.
  - destruct (IH (Z.max x a)) as [Hm Hall]. split; [lia|].
    intros y [->|Hy]%elem_of_cons; [lia|by apply Hall].
Qed.



Lemma existing_ids_well_keyed (uid : string)
    (table : gmap (string * string) dict) :
  well_keyed table →
  ∃ ids,
    existing_ids (query uid table) = Ok ids
    ∧ ∀ z, z ∈ ids ↔ numeric_id table uid z.
Proof.
  intros Hwf.
  destruct (existing_ids_of_string_ids (query uid table)) as (ids & Hids & Hspec).
  { apply list.Forall_forall. intros item [c Hc]%elem_of_query.
    exists c. by apply (Hwf uid c item). }
  exists ids. split; [done|]. intros z. rewrite Hspec. split.
  - intros (item & c & [c' Hc']%elem_of_query & Hc & Hz).
    destruct (Hwf _ _ _ Hc') as [_ Hkey].
    assert (c' = c) as -> by congruence.
    exists c. split; [by exists item|done].
  - intros (c & [item Hitem] & Hz).
    exists item, c. split; [|split; [|done]].
    + apply elem_of_query. by exists c.
    + by apply (Hwf uid c item).
Qed.

(** What [create_configuration] may do to the table: nothing, or one
    write of a record under the key it carries. *)
Lemma create_configuration_writes (now uid : string) (data : value)
    (table : gmap (string * string) dict) :
  (create_configuration now uid data table).2 = table
  ∨ ∃ cid walls targets,
      (create_configuration now uid data table).2
      = <[(uid, cid) := config_record now uid cid walls targets]> table.
Proof.
  unfold create_configuration.
  destruct (contains_key "walls" data) as [[|]|]; simpl; [| |by left].
  - destruct (contains_key "targets" data) as [[|]|]; simpl;
      [|by left|by left].
    destruct (existing_ids (query uid table)) as [ids|]; simpl; [|by left].
    destruct (subscript data "walls") as [walls|]; simpl; [|by left].
    destruct (subscript data "targets") as [targets|]; simpl; [|by left].
    right. by eexists _, _, _.
  - by left.
Qed.




End configuration_ids.

(** ** Deleting a round *)

Section round_deletion.

Lemma rounds_handle_delete_round_found (ev : event)
    (uid email : option string) (rid : string) (item : dict)
    (t : gmap string dict) :
  split "/" (path ev) !! 2%nat = Some rid →
  t !! rid = Some item →
  Rounds.handle_delete_round ev uid email t =
    if py_eq (get "authorEmail" item) (of_opt_str email)
    then (deleted, delete rid t)
    else (forbidden, t).
Proof.
  intros Hpath Hitem. unfold Rounds.handle_delete_round.
  apply lookup_lt_Some in Hpath as Hlen.
  destruct (Nat.ltb_spec (length (split "/" (path ev))) 3) as [Hlt|_]; [lia|].
  unfold index, Rounds.get_item. rewrite Hpath. simpl. rewrite Hitem.
  by destruct (py_eq _ _).
Qed.

Lemma index_handle_delete_round_found (ev : event)
    (uid email : option string) (rid : string) (item : dict)
    (t : gmap string dict) :
  split "/" (path ev) !! 2%nat = Some rid →
  t !! rid = Some item →
  Index.handle_delete_round ev uid email t =
    if py_eq (get "authorEmail" item) (of_opt_str email)
    then (deleted, delete rid t)
    else (forbidden, t).
Proof.
  intros Hpath Hitem. unfold Index.handle_delete_round.
  apply lookup_lt_Some in Hpath as Hlen.
  destruct (Nat.ltb_spec (length (split "/" (path ev))) 3) as [Hlt|_]; [lia|].
  unfold index, Rounds.get_item. rewrite Hpath. simpl. rewrite Hitem.
  by destruct (py_eq _ _).
Qed.

(** C6.  A delete request for a stored round, the author being the stored
    [authorEmail] and the caller's identity the email claim: a caller
    other than the author gets 403 and the table is left as it was, so the
    round is still stored; the author gets 200, and a later get of that
    round id on the resulting table gets 404. *)
Theorem delete_round_requires_author (ev : event)
    (uid email author : option string) (rid : string) (item : dict)
    (t : gmap string dict) :
  split "/" (path ev) !! 2%nat = Some rid →
  t !! rid = Some item →
  get "authorEmail" item = of_opt_str author →
  (email ≠ author →
   Rounds.handle_delete_round ev uid email t = (forbidden, t))
  ∧
  (email = author →
   ∃ t',
     Rounds.handle_delete_round ev uid email t = (deleted, t')
     ∧ ∀ (ev' : event) (uid' email' : option string),
         List.last (split "/" (path ev')) "" = rid →
         Rounds.handle_get_specific_round ev' uid' email' t' = round_not_found).
Proof.
  intros Hpath Hitem Hauthor.
  rewrite (rounds_handle_delete_round_found ev uid email rid item t Hpath Hitem).
  rewrite Hauthor, py_eq_of_opt_str, (bool_decide_ext _ (email = author)) by done.
  split; intros Hcase.
  - by rewrite bool_decide_eq_false_2.
  - rewrite bool_decide_eq_true_2 by done.
    exists (delete rid t). split; [done|].
    intros ev' uid' email' Hlast.
    unfold Rounds.handle_get_specific_round, Rounds.get_item.
    by rewrite Hlast, lookup_delete_eq.
Qed.

Lemma delete_round_requires_author_witness :
  Rounds.handle_delete_round
    (Event "DELETE" "/rounds/round_17" None None BodyNull)
    (Some "u2") (Some "eve@x.org")
    {[ "round_17" := [("roundId", VStr "round_17");
                      ("authorEmail", VStr "ann@x.org")] ]}
  = (forbidden,
     {[ "round_17" := [("roundId", VStr "round_17");
                       ("authorEmail", VStr "ann@x.org")] ]})
  ∧
  ∃ t',
    Rounds.handle_delete_round
      (Event "DELETE" "/rounds/round_17" None None BodyNull)
      (Some "u1") (Some "ann@x.org")
      {[ "round_17" := [("roundId", VStr "round_17");
                        ("authorEmail", VStr "ann@x.org")] ]}
    = (deleted, t')
    ∧ Rounds.handle_get_specific_round
        (Event "GET" "/rounds/round_17" None None BodyNull) None None t'
      = round_not_found.
Proof.
  split.
  - apply (delete_round_requires_author _ (Some "u2") (Some "eve@x.org")
             (Some "ann@x.org") "round_17"
             [("roundId", VStr "round_17"); ("authorEmail", VStr "ann@x.org")]);
      [reflexivity | apply lookup_singleton_eq | reflexivity | discriminate].
  - destruct (delete_round_requires_author
                (Event "DELETE" "/rounds/round_17" None None BodyNull)
                (Some "u1") (Some "ann@x.org") (Some "ann@x.org") "round_17"
                [("roundId", VStr "round_17"); ("authorEmail", VStr "ann@x.org")]
                {[ "round_17" := [("roundId", VStr "round_17");
                                  ("authorEmail", VStr "ann@x.org")] ]}
                eq_refl (lookup_singleton_eq _ _) eq_refl)
      as [_ Hauthor].
    destruct (Hauthor eq_refl) as (t' & Hdel & Hget).
    exists t'. split; [exact Hdel|].
    apply Hget. reflexivity.
Defined.

(** C10.  Whether a stored round may be deleted is decided by the email
    claim against the stored [authorEmail], in rounds.py and in index.py
    alike: a caller with the author's email deletes the round although the
    subject id is not the stored [authorId], and a caller whose subject id
    is the stored [authorId] but whose email is not the author's gets
    403. *)
Theorem delete_round_compares_emails (ev : event)
    (uid email author : option string) (rid : string) (item : dict)
    (t : gmap string dict) :
  split "/" (path ev) !! 2%nat = Some rid →
  t !! rid = Some item →
  get "authorEmail" item = of_opt_str author →
  (email = author →
   get "authorId" item ≠ of_opt_str uid →
   Rounds.handle_delete_round ev uid email t = (deleted, delete rid t)
   ∧ Index.handle_delete_round ev uid email t = (deleted, delete rid t))
  ∧
  (email ≠ author →
   get "authorId" item = of_opt_str uid →
   Rounds.handle_delete_round ev uid email t = (forbidden, t)
   ∧ Index.handle_delete_round ev uid email t = (forbidden, t)).
Proof.
  intros Hpath Hitem Hauthor.
  rewrite (rounds_handle_delete_round_found ev uid email rid item t Hpath Hitem).
  rewrite (index_handle_delete_round_found ev uid email rid item t Hpath Hitem).
  rewrite Hauthor, py_eq_of_opt_str.
  split; intros Hcase _.
  - by rewrite bool_decide_eq_true_2.
  - by rewrite bool_decide_eq_false_2.
Qed.

Lemma delete_round_compares_emails_witness :
  (Rounds.handle_delete_round
     (Event "DELETE" "/rounds/round_17" None None BodyNull)
     (Some "u2") (Some "ann@x.org")
     {[ "round_17" := [("authorEmail", VStr "ann@x.org");
                       ("authorId", VStr "u1")] ]}
   = (deleted, delete "round_17"
                 {[ "round_17" := [("authorEmail", VStr "ann@x.org");
                                   ("authorId", VStr "u1")] ]})
   ∧ Index.handle_delete_round
       (Event "DELETE" "/rounds/round_17" None None BodyNull)
       (Some "u2") (Some "ann@x.org")
       {[ "round_17" := [("authorEmail", VStr "ann@x.org");
                         ("authorId", VStr "u1")] ]}
     = (deleted, delete "round_17"
                   {[ "round_17" := [("authorEmail", VStr "ann@x.org");
                                     ("authorId", VStr "u1")] ]}))
  ∧
  (Rounds.handle_delete_round
     (Event "DELETE" "/rounds/round_17" None None BodyNull)
     (Some "u1") (Some "eve@x.org")
     {[ "round_17" := [("authorEmail", VStr "ann@x.org");
                       ("authorId", VStr "u1")] ]}
   = (forbidden, {[ "round_17" := [("authorEmail", VStr "ann@x.org");
                                   ("authorId", VStr "u1")] ]})
   ∧ Index.handle_delete_round
       (Event "DELETE" "/rounds/round_17" None None BodyNull)
       (Some "u1") (Some "eve@x.org")
       {[ "round_17" := [("authorEmail", VStr "ann@x.org");
                         ("authorId", VStr "u1")] ]}
     = (forbidden, {[ "round_17" := [("authorEmail", VStr "ann@x.org");
                                     ("authorId", VStr "u1")] ]})).
Proof.
  split.
  - apply (delete_round_compares_emails
             (Event "DELETE" "/rounds/round_17" None None BodyNull)
             (Some "u2") (Some "ann@x.org") (Some "ann@x.org") "round_17"
             [("authorEmail", VStr "ann@x.org"); ("authorId", VStr "u1")]);
      [reflexivity | apply lookup_singleton_eq | reflexivity
      | reflexivity | discriminate].
  - apply (delete_round_compares_emails
             (Event "DELETE" "/rounds/round_17" None None BodyNull)
             (Some "u1") (Some "eve@x.org") (Some "ann@x.org") "round_17"
             [("authorEmail", VStr "ann@x.org"); ("authorId", VStr "u1")]);
      [reflexivity | apply lookup_singleton_eq | reflexivity
      | discriminate | reflexivity].
Defined.

End round_deletion.

(** ** Listing rounds *)

Section round_listings.

Import Rounds.




End round_listings.

(** ** Updating a configuration *)

Section configuration_update.

Import Configurations.


(** A record without [createdAt] gets the time of the update as its
    [createdAt]. *)
Lemma update_configuration_without_created_at (now uid cid : string)
    (old d : dict) (walls targets : value)
    (table : gmap (string * string) dict) :
  table !! (uid, cid) = Some old →
  dict_get "createdAt" old = None →
  dict_get "walls" d = Some walls →
  dict_get "targets" d = Some targets →
  update_configuration now uid cid (VDict d) table =
    (updated,
     <[(uid, cid) := updated_record now uid cid walls targets (VStr now)]>
       table).
Proof.
  intros Hold Hcreated Hw Ht.
  unfold update_configuration, get_item, contains_key, subscript, dict_in,
    getitem, get_default.
  by rewrite Hold, Hw, Ht, Hcreated.
Qed.


End configuration_update.

(** ** Username validation *)

Section username_validation.

Import Profiles.

Lemma validate_username_refused (s : string) :
  username_refused s →
  ∃ message, validate_username s = inl (error_response 400 (Lit message)).
Proof.
  unfold validate_username. intros Hrefused.
  destruct (Nat.ltb_spec (String.length (strip s)) 3) as [_|Hmin];
    [by eexists|].
  destruct (Nat.ltb_spec 20 (String.length (strip s))) as [_|Hmax];
    [by eexists|].
  destruct Hrefused as [Hlen|[Hlen|Hchars]]; [lia|lia|].
  rewrite Hchars. by eexists.
Qed.

Lemma validate_username_accepted (s : string) :
  ¬ username_refused s → validate_username s = inr (strip s).
Proof.
  unfold validate_username, username_refused. intros Haccepted.
  destruct (Nat.ltb_spec (String.length (strip s)) 3) as [Hmin|_];
    [tauto|].
  destruct (Nat.ltb_spec 20 (String.length (strip s))) as [Hmax|_];
    [tauto|].
  destruct (isalnum _) eqn:Hchars; [done|tauto].
Qed.

Lemma username_refused_dec (s : string) :
  username_refused s ∨ ¬ username_refused s.
Proof.
  unfold username_refused.
  destruct (Nat.ltb_spec (String.length (strip s)) 3);
    destruct (Nat.ltb_spec 20 (String.length (strip s)));
    destruct (isalnum (remove_char "-" (remove_char "_" (strip s))));
    first [by auto | right; intros [?|[?|?]]; (lia || done)].
Qed.

Lemma dict_get_set_ne (k k' : string) (v : value) (d : dict) :
  k ≠ k' → dict_get k (dict_set k' v d) = dict_get k d.
Proof.
  intros Hne. induction d as [|[k0 v0] d IH]; simpl.
  - destruct (String.eqb_spec k k'); [done|done].
  - destruct (String.eqb_spec k' k0) as [->|Hk0]; simpl.
    + destruct (String.eqb_spec k k0); [done|done].
    + by rewrite IH.
Qed.

Lemma merge_fields_protected (k : string) (data profile : dict) :
  protected_field k = true →
  dict_get k (merge_fields data profile) = dict_get k profile.
Proof.
  intros Hk. revert profile.
  induction data as [|[key v] data IH]; intros profile; simpl; [done|].
  rewrite IH.
  destruct (protected_field key) eqn:Hkey; [done|].
  destruct v; try done; apply dict_get_set_ne; congruence.
Qed.



End username_validation.

(** * Further properties of the handlers *)

(** ** [int] and [str] *)

Lemma digits_val_string_of_uint (d : Decimal.uint) (acc : Z) (seen : bool) :
  digits_val (NilEmpty.string_of_uint d) acc seen =
    match d with
    | Decimal.Nil => if seen then Some acc else None
    | _ => Some (uint_value d acc)
    end.
Proof.
  revert acc seen. induction d; intros acc seen; [done|..];
    cbn [NilEmpty.string_of_uint digits_val uint_value]; simpl isdigit;
    cbv iota; rewrite IHd; simpl; by destruct d.
Qed.

Lemma uint_value_pos (d : Decimal.uint) (acc : positive) :
  uint_value d (Z.pos acc) = Z.pos (Pos.of_uint_acc d acc).
Proof.
  revert acc. induction d; intros acc; simpl; [done|..];
    rewrite <- IHd; f_equal; lia.
Qed.

Lemma uint_value_0 (d : Decimal.uint) : uint_value d 0 = Z.of_uint d.
Proof.
  unfold Z.of_uint. induction d; cbn [uint_value Pos.of_uint Z.of_N];
    [done|done|..]; by rewrite <- uint_value_pos.
Qed.

Lemma all_chars_string_of_uint (d : Decimal.uint) :
  all_chars isdigit (NilEmpty.string_of_uint d) = true.
Proof. induction d; simpl; try done. Qed.

Lemma rev_app_rev_app (s a b : string) :
  String.rev_app (String.rev_app s a) b = String.rev_app a (s +:+ b).
Proof.
  revert a. induction s as [|c s IH]; intros a; [done|].
  change (String.rev_app (String.rev_app s (String c a)) b
          = String.rev_app a (String c (s +:+ b))).
  by rewrite IH.
Qed.

Lemma append_empty_r (s : string) : s +:+ "" = s.
Proof.
  induction s as [|c s IH]; [done|].
  change (String c (s +:+ "") = String c s). by rewrite IH.
Qed.

Lemma rev_involutive (s : string) : String.rev (String.rev s) = s.
Proof.
  unfold String.rev. rewrite rev_app_rev_app. simpl. apply append_empty_r.
Qed.

Lemma all_chars_rev_app (p : ascii → bool) (s a : string) :
  all_chars p (String.rev_app s a) = all_chars p s && all_chars p a.
Proof.
  revert a. induction s as [|c s IH]; intros a; simpl; [done|].
  rewrite IH. simpl. by destruct (p c), (all_chars p s).
Qed.

Lemma int_lstrip_no_space (s : string) :
  all_chars (λ c, negb (int_space c)) s = true → int_lstrip s = s.
Proof.
  destruct s as [|c s]; simpl; [done|].
  by destruct (int_space c).
Qed.

Lemma int_strip_no_space (s : string) :
  all_chars (λ c, negb (int_space c)) s = true → int_strip s = s.
Proof.
  intros Hs. unfold int_strip.
  rewrite (int_lstrip_no_space s Hs).
  rewrite int_lstrip_no_space; [apply rev_involutive|].
  unfold String.rev. by rewrite all_chars_rev_app, Hs.
Qed.

Lemma all_chars_impl (p q : ascii → bool) (s : string) :
  (∀ c, p c = true → q c = true) →
  all_chars p s = true → all_chars q s = true.
Proof.
  intros Hpq. induction s as [|c s IH]; simpl; [done|].
  intros [Hc Hs]%andb_true_iff. by rewrite (Hpq c Hc), IH.
Qed.

Lemma isdigit_not_space (c : ascii) :
  isdigit c = true → negb (int_space c) = true.
Proof. by destruct c as [[] [] [] [] [] [] [] []]. Qed.

Lemma int_of_str_digits (d : Decimal.uint) :
  d ≠ Decimal.Nil →
  int_of_str (NilEmpty.string_of_uint d) = Some (uint_value d 0)
  ∧ int_of_str (String "-" (NilEmpty.string_of_uint d))
    = Some (- uint_value d 0)%Z.
Proof.
  intros Hd.
  assert (Hns : all_chars (λ c, negb (int_space c)) (NilEmpty.string_of_uint d)
                = true).
  { apply (all_chars_impl isdigit); [apply isdigit_not_space|].
    apply all_chars_string_of_uint. }
  unfold int_of_str. split.
  - rewrite (int_strip_no_space _ Hns).
    destruct d; [done|..];
      match goal with
      | |- _ = Some (uint_value ?d 0) =>
          apply (digits_val_string_of_uint d 0 false)
      end.
  - rewrite int_strip_no_space by (simpl; by rewrite Hns).
    rewrite digits_val_string_of_uint. by destruct d.
Qed.

(** [int(str(z))] is [z]. *)
Lemma int_of_str_py_str (z : Z) : int_of_str (py_str z) = Some z.
Proof.
  unfold py_str.
  destruct z as [|p|p]; [done|..]; simpl;
    pose proof (Unsigned.to_uint_nonnil p) as Hnil;
    pose proof (int_of_str_digits (Pos.to_uint p) Hnil) as [Hpos Hneg];
    assert (Hvalue : uint_value (Pos.to_uint p) 0 = Z.pos p)
      by (rewrite uint_value_0; unfold Z.of_uint;
          by rewrite DecimalPos.Unsigned.of_to).
  - unfold NilZero.string_of_uint.
    destruct (Pos.to_uint p) eqn:Hp; [done|..]; rewrite Hpos; by rewrite Hvalue.
  - unfold NilZero.string_of_uint.
    destruct (Pos.to_uint p) eqn:Hp; [done|..]; rewrite Hneg; by rewrite Hvalue.
Qed.

(** [int] reads a literal between spaces, and fails on one that follows a
    separator that [strip] would remove. *)
Example int_of_str_white_space :
  int_of_str " 5 " = Some 5%Z
  ∧ int_of_str (String (ascii_of_nat 28) "5") = None
  ∧ strip (String (ascii_of_nat 28) "5") = "5".
Proof. by vm_compute. Qed.

(** ** The configuration store *)

Section configuration_store.

Import Configurations.

Lemma next_id_above (ids : list Z) (z : Z) :
  z ∈ ids → (z < next_id ids)%Z.
Proof.
  destruct ids as [|x xs]; [by intros ?%elem_of_nil|].
  intros Hz. simpl. destruct (py_max_upper xs x) as [Hx Hxs].
  apply elem_of_cons in Hz as [->|Hz]; [lia|].
  specialize (Hxs z Hz). lia.
Qed.


(** The two outcomes of [create_configuration]: a 400 or 500 response and
    no write, or a 201 response and one write of the new record. *)
Lemma create_configuration_cases (now uid : string) (data : value)
    (table : gmap (string * string) dict) :
  (∃ r, create_configuration now uid data table = (r, table)
        ∧ (statusCode r = 400%Z ∨ statusCode r = 500%Z))
  ∨
  (∃ ids walls targets,
     existing_ids (query uid table) = Ok ids
     ∧ subscript data "walls" = Ok walls
     ∧ subscript data "targets" = Ok targets
     ∧ create_configuration now uid data table =
         (created (py_str (next_id ids)),
          <[(uid, py_str (next_id ids)) :=
              config_record now uid (py_str (next_id ids)) walls targets]>
            table)).
Proof.
  unfold create_configuration.
  destruct (contains_key "walls" data) as [[|]|]; simpl;
    [|left; eexists; split; [done|by left]
     |left; eexists; split; [done|by right]].
  destruct (contains_key "targets" data) as [[|]|]; simpl;
    [|left; eexists; split; [done|by left]
     |left; eexists; split; [done|by right]].
  destruct (existing_ids (query uid table)) as [ids|]; simpl;
    [|left; eexists; split; [done|by right]].
  destruct (subscript data "walls") as [walls|]; simpl;
    [|left; eexists; split; [done|by right]].
  destruct (subscript data "targets") as [targets|]; simpl;
    [|left; eexists; split; [done|by right]].
  right. by eexists ids, walls, targets.
Qed.

(** The id a create assigns is not the key of a stored record. *)
Lemma next_id_is_fresh (uid : string) (table : gmap (string * string) dict)
    (ids : list Z) :
  well_keyed table →
  existing_ids (query uid table) = Ok ids →
  table !! (uid, py_str (next_id ids)) = None.
Proof.
  intros Hwf Hids.
  destruct (existing_ids_well_keyed uid table Hwf) as (ids' & Hids' & Hspec).
  assert (ids' = ids) as -> by congruence.
  destruct (table !! (uid, py_str (next_id ids))) as [item|] eqn:Hitem;
    [|done].
  assert (Hin : next_id ids ∈ ids).
  { apply Hspec. exists (py_str (next_id ids)).
    split; [by exists item|apply int_of_str_py_str]. }
  apply next_id_above in Hin. lia.
Qed.

(** X2.  A create that answers 201 in a table whose items carry their keys
    keeps every stored record as it is: the new id is not in use. *)
Theorem create_configuration_never_overwrites (now uid : string)
    (data : value) (table : gmap (string * string) dict) :
  well_keyed table →
  statusCode (create_configuration now uid data table).1 = 201%Z →
  ∀ key item,
    table !! key = Some item →
    (create_configuration now uid data table).2 !! key = Some item.
Proof.
  intros Hwf Hstatus key item Hitem.
  destruct (create_configuration_cases now uid data table)
    as [(r & Hr & Hcode)|(ids & walls & targets & Hids & _ & _ & Hr)];
    rewrite Hr in *; simpl in *.
  - destruct Hcode as [Hcode|Hcode]; rewrite Hcode in Hstatus; done.
  - rewrite lookup_insert_ne; [done|].
    intros <-. by rewrite (next_id_is_fresh uid table ids Hwf Hids) in Hitem.
Qed.

Lemma create_configuration_never_overwrites_witness :
  (create_configuration "t2" "u1"
     (VDict [("walls", VList []); ("targets", VList [])])
     {[("u1", "1") := config_record "t1" "u1" "1" (VList []) (VList [])]}).2
  !! ("u1", "1")
  = Some (config_record "t1" "u1" "1" (VList []) (VList [])).
Proof.
  apply (create_configuration_never_overwrites "t2" "u1"
           (VDict [("walls", VList []); ("targets", VList [])])
           {[("u1", "1") := config_record "t1" "u1" "1" (VList []) (VList [])]}).
  - intros u c item [Hkey <-]%lookup_singleton_Some.
    by injection Hkey as <- <-.
  - vm_compute. reflexivity.
  - apply lookup_singleton_eq.
Defined.








(** What [update_configuration] may do to the table: nothing, or one write
    at [(uid, cid)] of a record that carries this key. *)
Lemma update_configuration_writes (now uid cid : string) (data : value)
    (table : gmap (string * string) dict) :
  (update_configuration now uid cid data table).2 = table
  ∨ ∃ walls targets created_at,
      (update_configuration now uid cid data table).2
      = <[(uid, cid) := updated_record now uid cid walls targets created_at]>
          table.
Proof.
  unfold update_configuration.
  destruct (get_item uid cid table) as [old|]; simpl; [|by left].
  destruct (contains_key "walls" data) as [[|]|]; simpl; [| |by left].
  - destruct (contains_key "targets" data) as [[|]|]; simpl;
      [|by left|by left].
    destruct (subscript data "walls") as [walls|]; simpl; [|by left].
    destruct (subscript data "targets") as [targets|]; simpl; [|by left].
    right. by eexists _, _, _.
  - by left.
Qed.

(** What a request may do to the table: nothing, or, for the subject id
    [uid] of its claims, one write of a record carrying its key
    [(uid, cid)] or the removal of the record at [(uid, cid)]. *)
Lemma configurations_handler_writes (now : string) (ev : event)
    (table : gmap (string * string) dict) :
  (lambda_handler now ev table).2 = table
  ∨ ∃ uid cid,
      claims ev ≫= sub = Some uid
      ∧ ((∃ item,
            dict_get "userId" item = Some (VStr uid)
            ∧ dict_get "configId" item = Some (VStr cid)
            ∧ (lambda_handler now ev table).2 = <[(uid, cid) := item]> table)
         ∨ (lambda_handler now ev table).2 = delete (uid, cid) table).
Proof.
  unfold lambda_handler.
  destruct (claims ev) as [bag|]; simpl; [|by left].
  destruct (sub bag) as [uid|] eqn:Hsub; simpl; [|by left].
  destruct (String.eqb (httpMethod ev) "OPTIONS"); simpl; [by left|].
  destruct (String.eqb (path ev) "/configurations").
  - destruct (String.eqb (httpMethod ev) "GET"); simpl; [by left|].
    destruct (String.eqb (httpMethod ev) "POST"); simpl; [|by left].
    destruct (loads (body ev)) as [data|[]]; simpl; try by left.
    destruct (create_configuration_writes now uid data table)
      as [Hsame|(cid & walls & targets & Hwrite)]; [by left|].
    right. exists uid, cid. split; [done|]. left.
    by exists (config_record now uid cid walls targets).
  - destruct (startswith "/configurations/" (path ev)); simpl; [|by left].
    destruct (pathParameters ev) as [params|]; simpl; [|by left].
    destruct (param "configId" params) as [cid|]; simpl; [|by left].
    destruct (String.eqb (httpMethod ev) "GET"); simpl; [by left|].
    destruct (String.eqb (httpMethod ev) "PUT"); simpl.
    { destruct (loads (body ev)) as [data|[]]; simpl; try by left.
      destruct (update_configuration_writes now uid cid data table)
        as [Hsame|(walls & targets & created_at & Hwrite)]; [by left|].
      right. exists uid, cid. split; [done|]. left.
      by exists (updated_record now uid cid walls targets created_at). }
    destruct (String.eqb (httpMethod ev) "DELETE"); simpl; [|by left].
    unfold delete_configuration, delete_item.
    destruct (get_item uid cid table); simpl; [|by left].
    right. exists uid, cid. split; [done|]. by right.
Qed.

(** X6.  No request changes a configuration of a user other than the one its
    claims name. *)
Theorem configurations_handler_isolates_users (now : string) (ev : event)
    (table : gmap (string * string) dict) (other cid : string) :
  claims ev ≫= sub ≠ Some other →
  (lambda_handler now ev table).2 !! (other, cid) = table !! (other, cid).
Proof.
  intros Hother.
  destruct (configurations_handler_writes now ev table)
    as [->|(uid & c & Hsub & [(item & _ & _ & ->)| ->])]; [done|..].
  - apply lookup_insert_ne. congruence.
  - apply lookup_delete_ne. congruence.
Qed.

Lemma configurations_handler_isolates_users_witness :
  (lambda_handler "t2"
     (Event "DELETE" "/configurations/1" (Some [("configId", "1")])
        (Some (Claims (Some "u2") None)) BodyNull)
     {[("u1", "1") := config_record "t1" "u1" "1" (VList []) (VList [])]}).2
  !! ("u1", "1")
  = ({[("u1", "1") := config_record "t1" "u1" "1" (VList []) (VList [])]}
       : gmap (string * string) dict) !! ("u1", "1").
Proof.
  apply (configurations_handler_isolates_users "t2"
           (Event "DELETE" "/configurations/1" (Some [("configId", "1")])
              (Some (Claims (Some "u2") None)) BodyNull)).
  simpl. discriminate.
Defined.

(** X7.  Every request keeps the items of the table carrying their own keys. *)
Theorem configurations_handler_keeps_keys (now : string) (ev : event)
    (table : gmap (string * string) dict) :
  well_keyed table → well_keyed (lambda_handler now ev table).2.
Proof.
  intros Hwf.
  destruct (configurations_handler_writes now ev table)
    as [->|(uid & c & Hsub & [(item & Hu & Hc & ->)| ->])]; [done|..].
  - intros u c' item' [[Hkey <-]|[_ Hold]]%lookup_insert_Some.
    + by injection Hkey as <- <-.
    + by apply Hwf.
  - intros u c' item' [_ Hold]%lookup_delete_Some. by apply Hwf.
Qed.

Lemma configurations_handler_keeps_keys_witness :
  well_keyed
    (lambda_handler "t1"
       (Event "POST" "/configurations" None (Some (Claims (Some "u1") None))
          (BodyJson (VDict [("walls", VList []); ("targets", VList [])])))
       ∅).2.
Proof.
  apply (configurations_handler_keeps_keys "t1"
           (Event "POST" "/configurations" None
              (Some (Claims (Some "u1") None))
              (BodyJson (VDict [("walls", VList []); ("targets", VList [])])))
           ∅).
  intros u c item Hitem. by rewrite lookup_empty in Hitem.
Defined.

(** X8.  A create with a body that is an object without [walls] or without
    [targets] is answered 400 and writes nothing, and so is an update of a
    stored record with such a body. *)
Theorem configuration_requires_walls_and_targets (now uid cid : string)
    (d : dict) (table : gmap (string * string) dict) :
  dict_get "walls" d = None ∨ dict_get "targets" d = None →
  create_configuration now uid (VDict d) table =
    (Response 400 cors_headers (Error (Lit "Missing walls or targets data")),
     table)
  ∧
  (is_Some (table !! (uid, cid)) →
   update_configuration now uid cid (VDict d) table =
     (Response 400 cors_headers (Error (Lit "Missing walls or targets data")),
      table)).
Proof.
  intros Hmissing.
  unfold create_configuration, update_configuration, get_item, contains_key,
    dict_in.
  split.
  - destruct Hmissing as [->| ->]; simpl; [done|].
    by destruct (dict_get "walls" d).
  - intros [old ->].
    destruct Hmissing as [->| ->]; simpl; [done|].
    by destruct (dict_get "walls" d).
Qed.

Lemma configuration_requires_walls_and_targets_witness :
  create_configuration "t1" "u1" (VDict [("walls", VList [])]) ∅ =
    (Response 400 cors_headers (Error (Lit "Missing walls or targets data")),
     ∅).
Proof.
  apply (configuration_requires_walls_and_targets "t1" "u1" "1"
           [("walls", VList [])] ∅).
  right. reflexivity.
Defined.

Lemma dict_get_set_eq (k : string) (v : value) (d : dict) :
  dict_get k (dict_set k v d) = Some v.
Proof.
  induction d as [|[k0 v0] d IH]; simpl.
  - by rewrite String.eqb_refl.
  - destruct (String.eqb_spec k k0) as [->|Hne]; simpl.
    + by rewrite String.eqb_refl.
    + destruct (String.eqb_spec k k0); [done|apply IH].
Qed.




End configuration_store.

(** ** The score store *)

Section score_store.

Import Scores.

(** X10.  A body that is an object without [moves], or with [moves] but without
    [moveSequence], is answered 400 and nothing is written. *)
Theorem submit_score_requires_fields (now uid : string) (round_id : value)
    (d : dict) (email : option string) (t : gmap (string * string) dict) :
  (dict_get "moves" d = None →
   submit_score now uid round_id (VDict d) email t =
     (Response 400 cors_headers (Error (Lit "moves field is required")), t))
  ∧
  (is_Some (dict_get "moves" d) →
   dict_get "moveSequence" d = None →
   submit_score now uid round_id (VDict d) email t =
     (Response 400 cors_headers (Error (Lit "moveSequence field is required")),
      t)).
Proof.
  unfold submit_score, contains_key, dict_in. split.
  - by intros ->.
  - by intros [moves ->] ->.
Qed.

Lemma submit_score_requires_fields_witness :
  submit_score "t1" "u1" (VStr "r1") (VDict [("moveSequence", VList [])])
    None ∅ =
    (Response 400 cors_headers (Error (Lit "moves field is required")), ∅)
  ∧
  submit_score "t1" "u1" (VStr "r1") (VDict [("moves", VInt 3)]) None ∅ =
    (Response 400 cors_headers (Error (Lit "moveSequence field is required")),
     ∅).
Proof.
  split.
  - apply (submit_score_requires_fields "t1" "u1" (VStr "r1")
             [("moveSequence", VList [])] None ∅).
    reflexivity.
  - apply (submit_score_requires_fields "t1" "u1" (VStr "r1")
             [("moves", VInt 3)] None ∅).
    + by eexists.
    + reflexivity.
Defined.

(** [a >= b] against a number [b] succeeds only for a number [a]. *)
Lemma py_ge_number (a b : value) (y : Z) (r : bool) :
  num_of b = Some y →
  py_ge a b = Ok r →
  ∃ x, num_of a = Some x ∧ r = (y <=? x)%Z.
Proof.
  intros Hb Hge.
  destruct b; simpl in Hb; try done;
    destruct a; simpl in Hge; try done;
    simplify_eq; by eexists.
Qed.

(** What [submit_score] does to the table, in full: nothing; or one write
    at the key of the request, of a record that holds the submitted moves
    and an integer [attemptCount], made when there was no record or when
    the stored moves were not reached. *)
Lemma submit_score_write_cases (now uid : string)
    (round_id score_data : value) (email : option string)
    (t : gmap (string * string) dict) :
  (submit_score now uid round_id score_data email t).2 = t
  ∨ ∃ rid moves sequence n,
      round_id = VStr rid
      ∧ subscript score_data "moves" = Ok moves
      ∧ (submit_score now uid round_id score_data email t).2
        = <[(rid, uid) :=
              [("roundId", VStr rid); ("userId", VStr uid); ("moves", moves);
               ("moveSequence", sequence); ("completedAt", VStr now);
               ("attemptCount", VInt n); ("userEmail", of_opt_str email)]]> t
      ∧ (t !! (rid, uid) = None
         ∨ ∃ old best, t !! (rid, uid) = Some old
                       ∧ dict_get "moves" old = Some best
                       ∧ py_ge moves best = Ok false).
Proof.
  unfold submit_score.
  destruct (contains_key "moves" score_data) as [[|]|]; simpl;
    [|by left|by left].
  destruct (contains_key "moveSequence" score_data) as [[|]|]; simpl;
    [|by left|by left].
  destruct (subscript score_data "moves") as [moves|]; simpl; [|by left].
  destruct (subscript score_data "moveSequence") as [sequence|]; simpl;
    [|by left].
  destruct (if truthy sequence then len sequence else Ok 0%nat); simpl;
    [|by left].
  destruct (get_item round_id uid t) as [existing|] eqn:Hget; simpl;
    [|by left].
  apply get_item_cases in Hget as (rid & -> & ->).
  destruct (t !! (rid, uid)) as [old|] eqn:Hold; simpl.
  - unfold add1.
    destruct (num_of (get_default "attemptCount" (VInt 0) old)) as [k|];
      simpl; [|by left].
    unfold getitem.
    destruct (dict_get "moves" old) as [best|] eqn:Hbest; simpl; [|by left].
    destruct (py_ge moves best) as [[|]|] eqn:Hge; simpl; [| |by left].
    + destruct (py_int best); simpl; by left.
    + match goal with
      | |- context [put_item ?item t] =>
          destruct (put_item_cases item t)
            as [[e ->]|(rid' & uid' & _ & _ & Hr & Hu & _ & ->)]; simpl;
            [by left|]; simpl in Hr, Hu; simplify_eq
      end.
      right. exists rid', moves, sequence, (k + 1)%Z.
      split_and!; [done|done|done|]. right. by exists old, best.
  - match goal with
    | |- context [put_item ?item t] =>
        destruct (put_item_cases item t)
          as [[e ->]|(rid' & uid' & _ & _ & Hr & Hu & _ & ->)]; simpl;
          [by left|]; simpl in Hr, Hu; simplify_eq
    end.
    right. exists rid', moves, sequence, 1%Z.
    split_and!; [done|done|done|]. by left.
Qed.

(** X11.  A submission changes no record but the one of its own round and
    user. *)
Theorem submit_score_touches_one_record (now uid : string)
    (round_id score_data : value) (email : option string)
    (t : gmap (string * string) dict) (key : string * string) :
  (VStr key.1, key.2) ≠ (round_id, uid) →
  (submit_score now uid round_id score_data email t).2 !! key = t !! key.
Proof.
  intros Hkey.
  destruct (submit_score_write_cases now uid round_id score_data email t)
    as [->|(rid & moves & sequence & n & -> & _ & -> & _)]; [done|].
  apply lookup_insert_ne. intros <-. by apply Hkey.
Qed.

Lemma submit_score_touches_one_record_witness :
  (submit_score "t2" "u1" (VStr "r1")
     (VDict [("moves", VInt 3); ("moveSequence", VList [])]) None
     {[("r2", "u1") := score_record "t1" "r2" "u1" (VInt 9) [] 1 None]}).2
  !! ("r2", "u1")
  = ({[("r2", "u1") := score_record "t1" "r2" "u1" (VInt 9) [] 1 None]}
       : gmap (string * string) dict) !! ("r2", "u1").
Proof.
  apply (submit_score_touches_one_record "t2" "u1" (VStr "r1")
           (VDict [("moves", VInt 3); ("moveSequence", VList [])]) None).
  simpl. discriminate.
Defined.

(** X12.  A stored best never gets worse: when the record of a round and user
    holds a number as its moves, then after any submission by that user
    for that round, accepted or not, well formed or not, the record holds a
    number that is not greater. *)
Theorem submit_score_never_worsens (now uid rid : string)
    (round_id score_data : value) (email : option string)
    (t : gmap (string * string) dict) (old : dict) (best : value) (b : Z) :
  t !! (rid, uid) = Some old →
  dict_get "moves" old = Some best →
  num_of best = Some b →
  ∃ new moves x,
    (submit_score now uid round_id score_data email t).2 !! (rid, uid)
    = Some new
    ∧ dict_get "moves" new = Some moves
    ∧ num_of moves = Some x
    ∧ (x ≤ b)%Z.
Proof.
  intros Hold Hbest Hb.
  destruct (submit_score_write_cases now uid round_id score_data email t)
    as [->|(rid' & moves & sequence & n & -> & _ & -> & Hwhy)].
  { exists old, best, b. split_and!; [done|done|done|lia]. }
  destruct (decide (rid' = rid)) as [->|Hne].
  - rewrite lookup_insert_eq.
    destruct Hwhy as [Hnone|(old' & best' & Hold' & Hbest' & Hge)];
      [congruence|].
    assert (old' = old) as -> by congruence.
    assert (best' = best) as -> by congruence.
    destruct (py_ge_number moves best b false Hb Hge) as (x & Hx & Hlt).
    eexists _, moves, x. split_and!; [done|done|done|].
    symmetry in Hlt. apply Z.leb_gt in Hlt. lia.
  - rewrite lookup_insert_ne by congruence.
    exists old, best, b. split_and!; [done|done|done|lia].
Qed.

Lemma submit_score_never_worsens_witness :
  ∃ new moves x,
    (submit_score "t2" "u1" (VStr "r1")
       (VDict [("moves", VInt 30); ("moveSequence", VList [])]) None
       {[("r1", "u1") := score_record "t1" "r1" "u1" (VInt 9) [] 1 None]}).2
    !! ("r1", "u1") = Some new
    ∧ dict_get "moves" new = Some moves
    ∧ num_of moves = Some x
    ∧ (x ≤ 9)%Z.
Proof.
  apply (submit_score_never_worsens "t2" "u1" "r1" (VStr "r1")
           (VDict [("moves", VInt 30); ("moveSequence", VList [])]) None
           {[("r1", "u1") := score_record "t1" "r1" "u1" (VInt 9) [] 1 None]}
           (score_record "t1" "r1" "u1" (VInt 9) [] 1 None) (VInt 9) 9%Z).
  - apply lookup_singleton_eq.
  - reflexivity.
  - reflexivity.
Defined.



(** What a request may do to the table: nothing, or what [submit_score]
    does for the subject id of its claims. *)
Lemma scores_handler_writes
    (leaderboard_index : gmap (string * string) dict → string → list dict)
    (now : string) (ev : event) (t : gmap (string * string) dict) :
  (lambda_handler leaderboard_index now ev t).2 = t
  ∨ ∃ uid round_id score_data,
      claims ev ≫= sub = Some uid
      ∧ (lambda_handler leaderboard_index now ev t).2
        = (submit_score now uid round_id score_data (claims ev ≫= email) t).2.
Proof.
  unfold lambda_handler.
  destruct (String.eqb (httpMethod ev) "OPTIONS"); simpl; [by left|].
  destruct (claims ev ≫= sub) as [uid|]; simpl; [|by left].
  destruct (String.eqb uid ""); simpl; [by left|].
  destruct (String.eqb (httpMethod ev) "GET"); simpl.
  { destruct (param "roundId" (default [] (pathParameters ev))) as [rid|];
      simpl; [|by left].
    destruct (String.eqb rid ""); by left. }
  destruct (String.eqb (httpMethod ev) "POST"); simpl; [|by left].
  destruct (body ev) as [| | |data]; simpl; try by left.
  - destruct (blank (param "roundId" (default [] (pathParameters ev))));
      simpl; [by left|].
    destruct (truthy (of_opt_str
                        (param "roundId" (default [] (pathParameters ev)))));
      simpl; by left.
  - destruct (if blank (param "roundId" (default [] (pathParameters ev)))
              then attr_get data "roundId"
              else Ok (of_opt_str
                         (param "roundId" (default [] (pathParameters ev)))))
      as [round_id|[]]; simpl; try by left.
    destruct (negb (truthy round_id)); simpl; [by left|].
    right. eexists uid, _, _. split; reflexivity.
Qed.

(** X14.  No request changes a score of a user other than the one its claims
    name. *)
Theorem scores_handler_isolates_users
    (leaderboard_index : gmap (string * string) dict → string → list dict)
    (now : string) (ev : event) (t : gmap (string * string) dict)
    (key : string * string) :
  claims ev ≫= sub ≠ Some key.2 →
  (lambda_handler leaderboard_index now ev t).2 !! key = t !! key.
Proof.
  intros Hother.
  destruct (scores_handler_writes leaderboard_index now ev t)
    as [->|(uid & round_id & score_data & Hsub & ->)]; [done|].
  destruct (submit_score_write_cases now uid round_id score_data
              (claims ev ≫= email) t)
    as [->|(rid & moves & sequence & n & _ & _ & -> & _)]; [done|].
  apply lookup_insert_ne. intros <-. simpl in Hother. congruence.
Qed.

Lemma scores_handler_isolates_users_witness :
  (lambda_handler (λ _ _, []) "t2"
     (Event "POST" "/scores/r1" (Some [("roundId", "r1")])
        (Some (Claims (Some "u2") None))
        (BodyJson (VDict [("moves", VInt 1); ("moveSequence", VList [])])))
     {[("r1", "u1") := score_record "t1" "r1" "u1" (VInt 9) [] 1 None]}).2
  !! ("r1", "u1")
  = ({[("r1", "u1") := score_record "t1" "r1" "u1" (VInt 9) [] 1 None]}
       : gmap (string * string) dict) !! ("r1", "u1").
Proof.
  apply (scores_handler_isolates_users (λ _ _, []) "t2"
           (Event "POST" "/scores/r1" (Some [("roundId", "r1")])
              (Some (Claims (Some "u2") None))
              (BodyJson (VDict [("moves", VInt 1); ("moveSequence", VList [])])))).
  simpl. discriminate.
Defined.

(** X15.  Every request keeps the stored attempt counts numbers, so that no
    later submission fails on adding one to them. *)
Theorem scores_handler_keeps_counts
    (leaderboard_index : gmap (string * string) dict → string → list dict)
    (now : string) (ev : event) (t : gmap (string * string) dict) :
  counted t → counted (lambda_handler leaderboard_index now ev t).2.
Proof.
  intros Hcounted.
  destruct (scores_handler_writes leaderboard_index now ev t)
    as [->|(uid & round_id & score_data & Hsub & ->)]; [done|].
  by apply submit_score_keeps_counts.
Qed.

Lemma scores_handler_keeps_counts_witness :
  counted
    (lambda_handler (λ _ _, []) "t1"
       (Event "POST" "/scores" None (Some (Claims (Some "u1") None))
          (BodyJson (VDict [("roundId", VStr "r1"); ("moves", VInt 4);
                            ("moveSequence", VList [])])))
       ∅).2.
Proof.
  apply (scores_handler_keeps_counts (λ _ _, []) "t1"
           (Event "POST" "/scores" None (Some (Claims (Some "u1") None))
              (BodyJson (VDict [("roundId", VStr "r1"); ("moves", VInt 4);
                                ("moveSequence", VList [])])))
           ∅).
  intros key item Hitem. by rewrite lookup_empty in Hitem.
Defined.

(** X16.  A POST by a known user with no round id in the path and none, or an
    empty or null one, in the object of its body is answered 400 and
    nothing is written. *)
Theorem post_score_requires_round_id
    (leaderboard_index : gmap (string * string) dict → string → list dict)
    (now : string) (ev : event) (uid : string) (d : dict)
    (t : gmap (string * string) dict) :
  httpMethod ev = "POST" →
  claims ev ≫= sub = Some uid →
  uid ≠ "" →
  blank (param "roundId" (default [] (pathParameters ev))) = true →
  body ev = BodyJson (VDict d) →
  truthy (get "roundId" d) = false →
  lambda_handler leaderboard_index now ev t =
    (Response 400 cors_headers
       (Error (Lit ("roundId is required for score submission "
                    +:+ "(in path or body)"))), t).
Proof.
  intros Hmethod Hsub Huid Hblank Hbody Hfalsy.
  unfold lambda_handler. rewrite Hmethod, Hsub, Hbody. simpl.
  destruct (String.eqb_spec uid "") as [|_]; [done|].
  rewrite Hblank. simpl. by rewrite Hfalsy.
Qed.

Lemma post_score_requires_round_id_witness :
  lambda_handler (λ _ _, []) "t1"
    (Event "POST" "/scores" None (Some (Claims (Some "u1") None))
       (BodyJson (VDict [("moves", VInt 4); ("moveSequence", VList [])])))
    ∅ =
    (Response 400 cors_headers
       (Error (Lit ("roundId is required for score submission "
                    +:+ "(in path or body)"))), ∅).
Proof.
  apply (post_score_requires_round_id (λ _ _, []) "t1"
           (Event "POST" "/scores" None (Some (Claims (Some "u1") None))
              (BodyJson (VDict [("moves", VInt 4); ("moveSequence", VList [])])))
           "u1" [("moves", VInt 4); ("moveSequence", VList [])] ∅);
    [reflexivity|reflexivity|discriminate|reflexivity|reflexivity|reflexivity].
Defined.

(** The round id of the path wins over the one of the body. *)
Lemma lambda_handler_post_submits_witness :
  lambda_handler (λ _ _, []) "t1"
    (Event "POST" "/scores/r1" (Some [("roundId", "r1")])
       (Some (Claims (Some "u1") (Some "ann@x.org")))
       (BodyJson (VDict [("roundId", VStr "r2"); ("moves", VInt 4);
                         ("moveSequence", VList [])])))
    ∅ =
    submit_score "t1" "u1" (VStr "r1")
      (VDict [("roundId", VStr "r2"); ("moves", VInt 4);
              ("moveSequence", VList [])])
      (Some "ann@x.org") ∅.
Proof.
  apply (lambda_handler_post_submits (λ _ _, []) "t1"
           (Event "POST" "/scores/r1" (Some [("roundId", "r1")])
              (Some (Claims (Some "u1") (Some "ann@x.org")))
              (BodyJson (VDict [("roundId", VStr "r2"); ("moves", VInt 4);
                                ("moveSequence", VList [])])))
           (Claims (Some "u1") (Some "ann@x.org")) "u1" "r1"
           [("roundId", VStr "r2"); ("moves", VInt 4);
            ("moveSequence", VList [])] ∅);
    [reflexivity|reflexivity|reflexivity|discriminate|reflexivity
    |discriminate|left; reflexivity].
Defined.

End score_store.

(** ** The round store *)

Section round_store.

Import Rounds.










(** X20.  A create on the plain route without a body is answered 400, and so is
    one whose object lacks a required field, the message naming the
    missing ones; neither writes. *)
Theorem create_round_requires_fields (now_ms : Z) (now : string)
    (ev : event) (uid email : option string) (t : gmap string dict) :
  (no_body (body ev) = true →
   handle_create_round now_ms now ev uid email t =
     (round_refused "Request body is required", t))
  ∧
  (∀ d : dict,
     contains "/config/" (path ev) = false →
     body ev = BodyJson (VDict d) →
     dict_get "initialRobotPositions" d = None
     ∨ dict_get "targetPositions" d = None →
     handle_create_round now_ms now ev uid email t =
       (round_refused
          ("Missing required fields: "
           +:+ String.concat ", "
                 (List.filter (λ k, negb (dict_in k d))
                    ["initialRobotPositions"; "targetPositions"])),
        t)).
Proof.
  split.
  - intros Hnone. unfold handle_create_round. by rewrite Hnone.
  - intros d Hpath Hbody Hmissing.
    unfold handle_create_round. rewrite Hbody, Hpath. simpl.
    unfold contains_key, dict_in.
    destruct (dict_get "initialRobotPositions" d) as [initial|];
      destruct (dict_get "targetPositions" d) as [target|]; simpl; try done.
    by destruct Hmissing.
Qed.

Lemma create_round_requires_fields_witness :
  handle_create_round 1700 "t1"
    (Event "POST" "/rounds" None None
       (BodyJson (VDict [("initialRobotPositions", VInt 1)])))
    None None ∅ =
    (round_refused "Missing required fields: targetPositions", ∅).
Proof.
  destruct (create_round_requires_fields 1700 "t1"
              (Event "POST" "/rounds" None None
                 (BodyJson (VDict [("initialRobotPositions", VInt 1)])))
              None None ∅) as [_ Hfields].
  exact (Hfields [("initialRobotPositions", VInt 1)] eq_refl eq_refl
           (or_intror eq_refl)).
Defined.

(** X21.  A delete on a path with fewer than three parts is answered
    400, one for an id that is not empty and not stored 404, and neither
    writes; and no delete changes a round other than the one its path
    names. *)
Theorem delete_round_leaves_the_others (ev : event)
    (uid email : option string) (t : gmap string dict) :
  ((length (split "/" (path ev)) < 3)%nat →
   handle_delete_round ev uid email t =
     (round_refused "Round ID is required", t))
  ∧ (∀ rid, split "/" (path ev) !! 2%nat = Some rid →
            rid ≠ "" →
            t !! rid = None →
            handle_delete_round ev uid email t = (round_not_found, t))
  ∧ (∀ rid, split "/" (path ev) !! 2%nat ≠ Some rid →
            (handle_delete_round ev uid email t).2 !! rid = t !! rid).
Proof.
  unfold handle_delete_round. split_and!.
  - intros Hshort.
    by destruct (Nat.ltb_spec (length (split "/" (path ev))) 3); [|lia].
  - intros rid Hpath _ Hnone.
    apply lookup_lt_Some in Hpath as Hlen.
    destruct (Nat.ltb_spec (length (split "/" (path ev))) 3); [lia|].
    unfold index, get_item. rewrite Hpath. simpl. by rewrite Hnone.
  - intros rid Hother.
    destruct (Nat.ltb_spec (length (split "/" (path ev))) 3); [done|].
    unfold index.
    destruct (split "/" (path ev) !! 2%nat) as [rid'|]; simpl; [|done].
    unfold get_item. destruct (t !! rid') as [item|]; simpl; [|done].
    destruct (negb (py_eq _ _)); simpl; [done|].
    unfold delete_item. apply lookup_delete_ne. congruence.
Qed.

Lemma delete_round_leaves_the_others_witness :
  handle_delete_round (Event "DELETE" "/rounds" None None BodyNull)
    None None ∅ = (round_refused "Round ID is required", ∅)
  ∧ handle_delete_round (Event "DELETE" "/rounds/round_9" None None BodyNull)
      None None ∅ = (round_not_found, ∅)
  ∧ (handle_delete_round
       (Event "DELETE" "/rounds/round_9" None None BodyNull) None None
       {[ "round_9" := [("roundId", VStr "round_9")];
          "round_8" := [("roundId", VStr "round_8")] ]}).2 !! "round_8"
    = ({[ "round_9" := [("roundId", VStr "round_9")];
          "round_8" := [("roundId", VStr "round_8")] ]}
         : gmap string dict) !! "round_8".
Proof.
  split_and!.
  - apply (delete_round_leaves_the_others
             (Event "DELETE" "/rounds" None None BodyNull) None None ∅).
    simpl. lia.
  - apply (delete_round_leaves_the_others
             (Event "DELETE" "/rounds/round_9" None None BodyNull) None None ∅)
      with (rid := "round_9"); [reflexivity|discriminate|apply lookup_empty].
  - apply (delete_round_leaves_the_others
             (Event "DELETE" "/rounds/round_9" None None BodyNull) None None).
    simpl. discriminate.
Defined.

End round_store.

(** ** The older rounds handler *)

Section older_round_store.

Import Index.




(** The plain create of index.py asks for [roundName] and [puzzleStates]:
    an object without one of them is answered 400 and nothing is
    written. *)
Theorem index_create_requires_name_and_states (now_ms : Z) (now : string)
    (ev : event) (uid email : option string) (d : dict)
    (t : gmap string dict) :
  body ev = BodyJson (VDict d) →
  dict_get "roundName" d = None ∨ dict_get "puzzleStates" d = None →
  handle_create_round now_ms now ev uid email t =
    (round_refused "Missing required fields: roundName, puzzleStates", t).
Proof.
  intros Hbody Hmissing.
  unfold handle_create_round. rewrite Hbody. simpl.
  unfold dict_in.
  destruct Hmissing as [->| ->]; simpl; [done|].
  by destruct (dict_get "roundName" d).
Qed.

Lemma index_create_requires_name_and_states_witness :
  handle_create_round 1700 "t1"
    (Event "POST" "/rounds" None None
       (BodyJson (VDict [("initialRobotPositions", VInt 1);
                         ("targetPositions", VInt 1)])))
    None None ∅ =
    (round_refused "Missing required fields: roundName, puzzleStates", ∅).
Proof.
  apply (index_create_requires_name_and_states 1700 "t1"
           (Event "POST" "/rounds" None None
              (BodyJson (VDict [("initialRobotPositions", VInt 1);
                                ("targetPositions", VInt 1)])))
           None None
           [("initialRobotPositions", VInt 1); ("targetPositions", VInt 1)] ∅);
    [reflexivity|left; reflexivity].
Defined.

End older_round_store.

(** ** The profile store *)

Section profile_store.

Import Profiles.

(** The outcomes of [update_user_profile]: a 400 or 500 response and no
    write, or a 200 response carrying the profile that is written, which is
    the base profile with the stripped username, if any, and then the
    fields of the body merged in, under the key it carries. *)
Lemma update_user_profile_cases (now now' uid : string)
    (email : option string) (data : value) (t : gmap string dict) :
  (∃ r, update_user_profile now now' uid email data t = (r, t)
        ∧ (statusCode r = 400%Z ∨ statusCode r = 500%Z))
  ∨
  (∃ d named key,
     data = VDict d
     ∧ (named = profile_base now now' uid email t
        ∨ ∃ s, dict_get "username" d = Some (VStr s)
               ∧ ¬ username_refused s
               ∧ named = dict_set "username" (VStr (strip s))
                           (profile_base now now' uid email t))
     ∧ dict_get "userId" (merge_fields d named) = Some (VStr key)
     ∧ update_user_profile now now' uid email data t =
         (Response 200 cors_headers (Json (VDict (merge_fields d named))),
          <[key := merge_fields d named]> t)).
Proof.
  unfold update_user_profile.
  destruct data as [| | | | |d]; simpl;
    try (left; eexists; split; [done|by left]).
  assert (Hsave : ∀ named,
    (∃ r, try_except
            (put_item (merge_fields d named) t
             ≫= λ t', Ok (success_response (VDict (merge_fields d named)), t'))
            (λ e, (error_response 500
                     (LitExn "Failed to update user profile: " e), t))
          = (r, t) ∧ (statusCode r = 400%Z ∨ statusCode r = 500%Z))
    ∨ ∃ key,
        dict_get "userId" (merge_fields d named) = Some (VStr key)
        ∧ try_except
            (put_item (merge_fields d named) t
             ≫= λ t', Ok (success_response (VDict (merge_fields d named)), t'))
            (λ e, (error_response 500
                     (LitExn "Failed to update user profile: " e), t))
          = (Response 200 cors_headers (Json (VDict (merge_fields d named))),
             <[key := merge_fields d named]> t)).
  { intros named. unfold put_item, get, get_default.
    destruct (dict_get "userId" (merge_fields d named)) as [[| | |key| |]|];
      simpl; try (left; eexists; split; [done|by right]).
    right. by exists key. }
  destruct (get "username" d) as [| | |s| |] eqn:Hname; simpl;
    try (left; eexists; split; [done|by left]).
  - destruct (Hsave (profile_base now now' uid email t))
      as [Hfail|(key & Hkey & Hok)]; [by left|].
    right. exists d, (profile_base now now' uid email t), key.
    split_and!; [done|by left|done|done].
  - assert (Hraw : dict_get "username" d = Some (VStr s)).
    { unfold get, get_default in Hname.
      by destruct (dict_get "username" d) as [v|]; simplify_eq. }
    destruct (username_refused_dec s) as [Hrefused|Haccepted].
    + destruct (validate_username_refused s Hrefused) as [message ->].
      left. eexists. split; [done|by left].
    + rewrite (validate_username_accepted s Haccepted).
      destruct (Hsave (dict_set "username" (VStr (strip s))
                         (profile_base now now' uid email t)))
        as [Hfail|(key & Hkey & Hok)]; [by left|].
      right. eexists d, _, key.
      split_and!; [done|right; by exists s|done|done].
Qed.

Lemma profile_base_protected (now now' uid : string) (email : option string)
    (t : gmap string dict) (old : dict) (k : string) :
  t !! uid = Some old →
  k ≠ "updatedAt" →
  dict_get k (profile_base now now' uid email t) = dict_get k old.
Proof.
  intros Hold Hk. unfold profile_base. rewrite Hold.
  by apply dict_get_set_ne.
Qed.

(** X23.  The identity of a stored profile is out of reach of an update: after
    any update by the user, whatever the body, the profile stored for the
    user has the [userId], [email] and [createdAt] it had. *)
Theorem update_user_profile_protects_identity (now now' uid : string)
    (email : option string) (data : value) (t : gmap string dict)
    (old : dict) :
  t !! uid = Some old →
  ∃ new,
    (update_user_profile now now' uid email data t).2 !! uid = Some new
    ∧ dict_get "userId" new = dict_get "userId" old
    ∧ dict_get "email" new = dict_get "email" old
    ∧ dict_get "createdAt" new = dict_get "createdAt" old.
Proof.
  intros Hold.
  destruct (update_user_profile_cases now now' uid email data t)
    as [(r & -> & _)|(d & named & key & -> & Hnamed & Hkey & ->)]; simpl.
  { by exists old. }
  assert (Hkept : ∀ k, protected_field k = true → k ≠ "updatedAt" →
            dict_get k (merge_fields d named) = dict_get k old).
  { intros k Hprotected Hk. rewrite merge_fields_protected by done.
    destruct Hnamed as [->|(s & _ & _ & ->)].
    - by apply profile_base_protected.
    - rewrite dict_get_set_ne by (by intros ->).
      by apply profile_base_protected. }
  destruct (decide (key = uid)) as [->|Hne].
  - rewrite lookup_insert_eq. eexists. split; [done|].
    split_and!; by apply Hkept.
  - rewrite lookup_insert_ne by done. by exists old.
Qed.

Lemma update_user_profile_protects_identity_witness :
  ∃ new,
    (update_user_profile "t2" "t3" "u1" (Some "eve@x.org")
       (VDict [("userId", VStr "u9"); ("email", VStr "eve@x.org");
               ("createdAt", VStr "t0"); ("username", VStr "ann")])
       {[ "u1" := [("userId", VStr "u1"); ("email", VStr "ann@x.org");
                   ("createdAt", VStr "t1")] ]}).2 !! "u1" = Some new
    ∧ dict_get "userId" new
      = dict_get "userId" [("userId", VStr "u1"); ("email", VStr "ann@x.org");
                           ("createdAt", VStr "t1")]
    ∧ dict_get "email" new
      = dict_get "email" [("userId", VStr "u1"); ("email", VStr "ann@x.org");
                          ("createdAt", VStr "t1")]
    ∧ dict_get "createdAt" new
      = dict_get "createdAt" [("userId", VStr "u1");
                              ("email", VStr "ann@x.org");
                              ("createdAt", VStr "t1")].
Proof.
  apply (update_user_profile_protects_identity "t2" "t3" "u1"
           (Some "eve@x.org")).
  apply lookup_singleton_eq.
Defined.

Lemma merge_fields_absent (k : string) (d profile : dict) :
  k ∉ d.*1 → dict_get k (merge_fields d profile) = dict_get k profile.
Proof.
  revert profile. induction d as [|[k0 v0] d IH]; intros profile Hk; [done|].
  apply not_elem_of_cons in Hk as [Hne Hk]. simpl in *.
  rewrite IH by done.
  destruct (protected_field k0); [done|].
  destruct v0; try done; by apply dict_get_set_ne.
Qed.

Lemma merge_fields_stores (k : string) (v : value) (d profile : dict) :
  NoDup d.*1 →
  dict_get k d = Some v →
  protected_field k = false →
  v ≠ VNone →
  dict_get k (merge_fields d profile) = Some v.
Proof.
  intros Hnodup Hget Hfree Hv. revert profile Hnodup Hget.
  induction d as [|[k0 v0] d IH]; intros profile Hnodup Hget; [done|].
  apply list.NoDup_cons in Hnodup as [Hfresh Hnodup]. simpl in *.
  destruct (String.eqb_spec k k0) as [<-|Hne].
  - injection Hget as ->. rewrite Hfree.
    rewrite merge_fields_absent by done.
    destruct v; try done; apply dict_get_set_eq.
  - by apply IH.
Qed.

(** In a table of keyed profiles the profile an update writes carries the
    caller's id. *)
Lemma updated_profile_key (now now' uid : string) (email : option string)
    (d named : dict) (t : gmap string dict) :
  keyed_profiles t →
  (named = profile_base now now' uid email t
   ∨ ∃ s, dict_get "username" d = Some (VStr s)
          ∧ ¬ username_refused s
          ∧ named = dict_set "username" (VStr (strip s))
                      (profile_base now now' uid email t)) →
  dict_get "userId" (merge_fields d named) = Some (VStr uid).
Proof.
  intros Hkeyed Hnamed.
  rewrite merge_fields_protected by done.
  assert (Hbase : dict_get "userId" (profile_base now now' uid email t)
                  = Some (VStr uid)).
  { unfold profile_base.
    destruct (t !! uid) as [old|] eqn:Hold; [|done].
    rewrite dict_get_set_ne by done. by apply Hkeyed. }
  destruct Hnamed as [->|(s & _ & _ & ->)]; [done|].
  by rewrite dict_get_set_ne.
Qed.

(** X24.  A successful update, in a table of keyed profiles and for a body
    whose keys are distinct, stores every field of the body as it was
    sent, but for the four protected fields and the null ones.  This holds
    for [username] too: it is checked stripped and stored unstripped. *)
Theorem update_user_profile_stores_fields (now now' uid : string)
    (email : option string) (d : dict) (t : gmap string dict) :
  keyed_profiles t →
  NoDup d.*1 →
  statusCode (update_user_profile now now' uid email (VDict d) t).1 = 200%Z →
  ∃ new,
    (update_user_profile now now' uid email (VDict d) t).2 !! uid = Some new
    ∧ ∀ k v,
        dict_get k d = Some v →
        protected_field k = false →
        v ≠ VNone →
        dict_get k new = Some v.
Proof.
  intros Hkeyed Hnodup Hstatus.
  destruct (update_user_profile_cases now now' uid email (VDict d) t)
    as [(r & Hr & Hcode)|(d' & named & key & Hd & Hnamed & Hkey & Hr)];
    rewrite Hr in *; simpl in *.
  { destruct Hcode as [Hcode|Hcode]; rewrite Hcode in Hstatus; done. }
  injection Hd as <-.
  rewrite (updated_profile_key now now' uid email d named t Hkeyed Hnamed)
    in Hkey.
  injection Hkey as <-.
  rewrite lookup_insert_eq. eexists. split; [done|].
  intros k v Hget Hfree Hv. by apply merge_fields_stores.
Qed.

Lemma update_user_profile_stores_fields_witness :
  ∃ new,
    (update_user_profile "t1" "t2" "u1" None
       (VDict [("username", VStr " ann "); ("color", VStr "red")]) ∅).2
    !! "u1" = Some new
    ∧ ∀ k v,
        dict_get k [("username", VStr " ann "); ("color", VStr "red")]
        = Some v →
        protected_field k = false →
        v ≠ VNone →
        dict_get k new = Some v.
Proof.
  apply (update_user_profile_stores_fields "t1" "t2" "u1" None
           [("username", VStr " ann "); ("color", VStr "red")] ∅).
  - intros u profile Hprofile. by rewrite lookup_empty in Hprofile.
  - simpl. apply NoDup_cons_2; [|apply NoDup_singleton].
    intros [=]%list_elem_of_singleton.
  - vm_compute. reflexivity.
Defined.



(** X26.  The first successful update of a user creates the profile from the
    claims and the clock: the body cannot set [userId], [email],
    [createdAt] or [updatedAt]. *)
Theorem update_user_profile_creates (now now' uid : string)
    (email : option string) (data : value) (t : gmap string dict) :
  t !! uid = None →
  statusCode (update_user_profile now now' uid email data t).1 = 200%Z →
  ∃ new,
    (update_user_profile now now' uid email data t).2 !! uid = Some new
    ∧ dict_get "userId" new = Some (VStr uid)
    ∧ dict_get "email" new = Some (of_opt_str email)
    ∧ dict_get "createdAt" new = Some (VStr now)
    ∧ dict_get "updatedAt" new = Some (VStr now').
Proof.
  intros Hnone Hstatus.
  destruct (update_user_profile_cases now now' uid email data t)
    as [(r & Hr & Hcode)|(d & named & key & -> & Hnamed & Hkey & Hr)];
    rewrite Hr in *; simpl in *.
  { destruct Hcode as [Hcode|Hcode]; rewrite Hcode in Hstatus; done. }
  assert (Hfields : ∀ k, protected_field k = true →
            dict_get k (merge_fields d named)
            = dict_get k [("userId", VStr uid); ("email", of_opt_str email);
                          ("createdAt", VStr now); ("updatedAt", VStr now')]).
  { intros k Hprotected. rewrite merge_fields_protected by done.
    unfold profile_base in Hnamed. rewrite Hnone in Hnamed.
    destruct Hnamed as [->|(s & _ & _ & ->)]; [done|].
    apply dict_get_set_ne. by intros ->. }
  rewrite (Hfields "userId") in Hkey by done. injection Hkey as <-.
  rewrite lookup_insert_eq. eexists. split; [done|].
  split_and!; by rewrite Hfields.
Qed.

Lemma update_user_profile_creates_witness :
  ∃ new,
    (update_user_profile "t1" "t2" "u1" (Some "ann@x.org")
       (VDict [("userId", VStr "u9"); ("createdAt", VStr "t0")]) ∅).2
    !! "u1" = Some new
    ∧ dict_get "userId" new = Some (VStr "u1")
    ∧ dict_get "email" new = Some (of_opt_str (Some "ann@x.org"))
    ∧ dict_get "createdAt" new = Some (VStr "t1")
    ∧ dict_get "updatedAt" new = Some (VStr "t2").
Proof.
  apply (update_user_profile_creates "t1" "t2" "u1" (Some "ann@x.org")
           (VDict [("userId", VStr "u9"); ("createdAt", VStr "t0")]) ∅).
  - apply lookup_empty.
  - vm_compute. reflexivity.
Defined.

(** The first update of a user with a body that holds an accepted
    username and nothing else. *)
Lemma update_username_only (now now' uid s : string)
    (email : option string) (t : gmap string dict) :
  t !! uid = None →
  ¬ username_refused s →
  update_user_profile now now' uid email (VDict [("username", VStr s)]) t =
    (Response 200 cors_headers
       (Json (VDict [("userId", VStr uid); ("email", of_opt_str email);
                     ("createdAt", VStr now); ("updatedAt", VStr now');
                     ("username", VStr s)])),
     <[uid := [("userId", VStr uid); ("email", of_opt_str email);
               ("createdAt", VStr now); ("updatedAt", VStr now');
               ("username", VStr s)]]> t).
Proof.
  intros Hnone Haccepted.
  unfold update_user_profile. simpl.
  rewrite (validate_username_accepted s Haccepted).
  unfold get_item. rewrite Hnone. done.
Qed.

(** X27.  Usernames are not checked against other profiles: two users who send
    the same accepted username both get 200, and the public lookup shows
    that name for both. *)
Theorem usernames_are_not_unique (now1 now1' now2 now2' uid1 uid2 s : string)
    (email1 email2 : option string) (t : gmap string dict) :
  uid1 ≠ uid2 →
  t !! uid1 = None →
  t !! uid2 = None →
  ¬ username_refused s →
  statusCode (update_user_profile now1 now1' uid1 email1
                (VDict [("username", VStr s)]) t).1 = 200%Z
  ∧ statusCode (update_user_profile now2 now2' uid2 email2
                  (VDict [("username", VStr s)])
                  (update_user_profile now1 now1' uid1 email1
                     (VDict [("username", VStr s)]) t).2).1 = 200%Z
  ∧ get_username_by_user_id uid1
      (update_user_profile now2 now2' uid2 email2
         (VDict [("username", VStr s)])
         (update_user_profile now1 now1' uid1 email1
            (VDict [("username", VStr s)]) t).2).2
    = Response 200 cors_headers
        (Json (VDict [("userId", VStr uid1); ("username", VStr s);
                      ("email", of_opt_str email1)]))
  ∧ get_username_by_user_id uid2
      (update_user_profile now2 now2' uid2 email2
         (VDict [("username", VStr s)])
         (update_user_profile now1 now1' uid1 email1
            (VDict [("username", VStr s)]) t).2).2
    = Response 200 cors_headers
        (Json (VDict [("userId", VStr uid2); ("username", VStr s);
                      ("email", of_opt_str email2)])).
Proof.
  intros Hne Hnone1 Hnone2 Haccepted.
  rewrite (update_username_only now1 now1' uid1 s email1 t Hnone1 Haccepted).
  simpl.
  rewrite (update_username_only now2 now2' uid2 s email2)
    by (by rewrite ?lookup_insert_ne).
  simpl. unfold get_username_by_user_id, get_item.
  rewrite lookup_insert_ne, !lookup_insert_eq by done.
  done.
Qed.

Lemma usernames_are_not_unique_witness :
  statusCode (update_user_profile "t3" "t4" "u2" None
                (VDict [("username", VStr "ann")])
                (update_user_profile "t1" "t2" "u1" None
                   (VDict [("username", VStr "ann")]) ∅).2).1 = 200%Z.
Proof.
  apply (usernames_are_not_unique "t1" "t2" "t3" "t4" "u1" "u2" "ann"
           None None ∅).
  - discriminate.
  - apply lookup_empty.
  - apply lookup_empty.
  - intros [Hlen|[Hlen|Hchars]]; vm_compute in *; (lia || done).
Defined.

(** What a request may do to the table: nothing, or what
    [update_user_profile] does for the subject id of its claims. *)
Lemma profiles_handler_writes (now now' : string) (ev : event)
    (t : gmap string dict) :
  (lambda_handler now now' ev t).2 = t
  ∨ ∃ uid data,
      claims ev ≫= sub = Some uid
      ∧ (lambda_handler now now' ev t).2
        = (update_user_profile now now' uid (claims ev ≫= email) data t).2.
Proof.
  unfold lambda_handler.
  destruct (String.eqb (httpMethod ev) "OPTIONS"); simpl; [by left|].
  destruct (claims ev ≫= sub) as [uid|]; simpl; [|by left].
  destruct (String.eqb uid ""); simpl; [by left|].
  destruct (String.eqb (httpMethod ev) "GET"); simpl.
  { destruct (contains "/user/username/" (path ev)); by left. }
  destruct (String.eqb (httpMethod ev) "PUT"); simpl; [|by left].
  destruct (loads (body ev)) as [data|[]]; simpl; try by left.
  right. by exists uid, data.
Qed.

(** X28.  In a table of keyed profiles no request changes the profile of a user
    other than the one its claims name, and every request leaves the
    profiles keyed. *)
Theorem profiles_handler_isolates_users (now now' : string) (ev : event)
    (t : gmap string dict) :
  keyed_profiles t →
  keyed_profiles (lambda_handler now now' ev t).2
  ∧ ∀ other, claims ev ≫= sub ≠ Some other →
             (lambda_handler now now' ev t).2 !! other = t !! other.
Proof.
  intros Hkeyed.
  destruct (profiles_handler_writes now now' ev t)
    as [->|(uid & data & Hsub & ->)]; [done|].
  destruct (update_user_profile_cases now now' uid (claims ev ≫= email) data t)
    as [(r & -> & _)|(d & named & key & -> & Hnamed & Hkey & ->)]; simpl;
    [done|].
  rewrite (updated_profile_key now now' uid _ d named t Hkeyed Hnamed) in Hkey.
  injection Hkey as <-. split.
  - intros u profile [[<- <-]|[_ Hold]]%lookup_insert_Some.
    + by apply (updated_profile_key now now' uid (claims ev ≫= email) d
                  named t).
    + by apply Hkeyed.
  - intros other Hother. apply lookup_insert_ne. congruence.
Qed.

Lemma profiles_handler_isolates_users_witness :
  (lambda_handler "t2" "t3"
     (Event "PUT" "/user/profile" None (Some (Claims (Some "u2") None))
        (BodyJson (VDict [("userId", VStr "u1"); ("username", VStr "bob")])))
     {[ "u1" := [("userId", VStr "u1"); ("username", VStr "ann")] ]}).2
  !! "u1"
  = ({[ "u1" := [("userId", VStr "u1"); ("username", VStr "ann")] ]}
       : gmap string dict) !! "u1".
Proof.
  destruct (profiles_handler_isolates_users "t2" "t3"
              (Event "PUT" "/user/profile" None
                 (Some (Claims (Some "u2") None))
                 (BodyJson (VDict [("userId", VStr "u1");
                                   ("username", VStr "bob")])))
              {[ "u1" := [("userId", VStr "u1"); ("username", VStr "ann")] ]})
    as [_ Hothers].
  - intros u profile [<- <-]%lookup_singleton_Some. reflexivity.
  - apply Hothers. simpl. discriminate.
Defined.

End profile_store.

(** ** Bodies that are not JSON *)

(** X29.  A body that [json.loads] rejects: the scores handler (POST), the
    profile handler (PUT) and the configurations handler (POST on
    /configurations) answer 400; the rounds handler (POST) answers 500,
    its creates catching the decoding error with every other exception.
    None of them writes. *)
Theorem malformed_body_is_refused
    (leaderboard_index : gmap (string * string) dict → string → list dict)
    (now_ms : Z) (now now' : string) (ev : event) (uid : string)
    (scores_table table : gmap (string * string) dict)
    (profiles_table rounds_table : gmap string dict) :
  body ev = BodyMalformed →
  claims ev ≫= sub = Some uid →
  uid ≠ "" →
  (httpMethod ev = "POST" →
   Scores.lambda_handler leaderboard_index now ev scores_table =
     (Response 400 Scores.cors_headers
        (Error (Lit "Invalid JSON in request body")), scores_table))
  ∧ (httpMethod ev = "PUT" →
     Profiles.lambda_handler now now' ev profiles_table =
       (Response 400 Profiles.cors_headers
          (Error (Lit "Invalid JSON in request body")), profiles_table))
  ∧ (httpMethod ev = "POST" →
     path ev = "/configurations" →
     Configurations.lambda_handler now ev table =
       (Response 400 Configurations.cors_headers
          (Error (Lit "Invalid JSON in request body")), table))
  ∧ (httpMethod ev = "POST" →
     Rounds.lambda_handler now_ms now ev rounds_table =
       (Response 500 Rounds.cors_headers
          (Json (VDict [("error", VStr "Failed to create round")])),
        rounds_table)).
Proof.
  intros Hbody Hsub Huid. split_and!; intros Hmethod.
  - unfold Scores.lambda_handler. rewrite Hmethod, Hsub, Hbody. simpl.
    by destruct (String.eqb_spec uid "").
  - unfold Profiles.lambda_handler. rewrite Hmethod, Hsub, Hbody. simpl.
    by destruct (String.eqb_spec uid "").
  - intros Hpath. unfold Configurations.lambda_handler.
    destruct (claims ev) as [bag|]; simpl in *; [|done].
    rewrite Hsub. simpl. rewrite Hmethod, Hpath, Hbody. done.
  - unfold Rounds.lambda_handler, Rounds.handle_create_round,
      Rounds.handle_create_round_with_config_id.
    rewrite Hmethod, Hbody. simpl.
    destruct (contains "/config/" (path ev)); [|done].
    by destruct (index (split "/" (path ev)) 3).
Qed.

Lemma malformed_body_is_refused_witness :
  Rounds.lambda_handler 1700 "t1"
    (Event "POST" "/rounds" None (Some (Claims (Some "u1") None))
       BodyMalformed) ∅ =
    (Response 500 Rounds.cors_headers
       (Json (VDict [("error", VStr "Failed to create round")])), ∅).
Proof.
  apply (malformed_body_is_refused (λ _ _, []) 1700 "t1" "t2"
           (Event "POST" "/rounds" None (Some (Claims (Some "u1") None))
              BodyMalformed) "u1" ∅ ∅ ∅ ∅);
    [reflexivity|reflexivity|discriminate|reflexivity].
Defined.
